(** * Mock-Interview-Agent: the resilient invocation, extraction and session layer

    A shallow embedding of [tools.py], [api.py] and the scripted interview of
    [interview_agent.py], the properties of the specification proved or
    refuted on it, and further properties read off the code.

    - A Python [str] is the sequence of its code points ([pystr]); a value
      built by [json.loads] is a [pyval]; a float is kept as its literal.
    - Code that calls the remote model, sleeps or raises runs in the monad
      [M]: the [world] passed explicitly, and a result or a Python exception.
      The remote model is an oracle of the world: any behaviour of it is a
      world. A float is the rational it denotes.
    - What [tools.py] takes from the Python library ([json.loads], the
      [unicode_escape] codec, [int], [str] on floats and containers, the
      float power and [time.sleep]) is the class [PyLib]; the theorems hold
      for every instance. [cpython.lib] is an instance that computes, used
      to run the code on concrete texts.
    - A session is a record, the session mapping a [gmap]; a request or a
      background unit is a function on the mapping, run as one step.

    - [str.lower] (for the heuristics) and the direct client call
      [llm_invoke] (for the summary) are parameters of the sections that use
      them.

    Layout: the embedding, the reference library, then the theorems. *)

From Stdlib Require Import ZArith QArith Qpower Qabs Ascii String DecimalString.
From stdpp Require Import gmap list.

Set Warnings "-register-all".
Local Open Scope Z_scope.

(** ** Python strings *)

(** A Python [str]: its code points, in order. *)
Abbreviation pystr := (list N).

(** The [str] written as an ASCII literal. *)
Definition py (s : string) : pystr := N_of_ascii <$> list_ascii_of_string s.
Arguments py : simpl never.

Definition chr (a : ascii) : N := N_of_ascii a.

(** [str.isspace] of one character (CPython's [_PyUnicode_IsWhitespace]). *)
Definition isspace (c : N) : bool :=
  ((9 <=? c) && (c <=? 13) || (28 <=? c) && (c <=? 32)
   || (c =? 133) || (c =? 160) || (c =? 5760)
   || (8192 <=? c) && (c <=? 8202)
   || (c =? 8232) || (c =? 8233) || (c =? 8239) || (c =? 8287)
   || (c =? 12288))%N.

(** [s.lstrip()], [s.rstrip()] and [s.strip()]. *)
Fixpoint lstrip (s : pystr) : pystr :=
  match s with
  | c :: s' => if isspace c then lstrip s' else s
  | [] => []
  end.

Definition rstrip (s : pystr) : pystr := rev (lstrip (rev s)).

Definition strip (s : pystr) : pystr := rstrip (lstrip s).

(** [s.split(sep)] for the separators in [is_sep]: every separator character
    ends a field, empty fields are kept ([re.split] on a character class and
    [str.split] on a one-character separator). *)
Fixpoint split_on (is_sep : N -> bool) (cur : pystr) (s : pystr) : list pystr :=
  match s with
  | [] => [rev cur]
  | c :: s' =>
      if is_sep c then rev cur :: split_on is_sep [] s'
      else split_on is_sep (c :: cur) s'
  end.

(** [s.split()]: the maximal runs of characters that are not whitespace. *)
Definition split_whitespace (s : pystr) : list pystr :=
  filter (fun f => f <> []) (split_on isspace [] s).

(** [s[:n]]. *)
Definition slice_to (n : nat) (s : pystr) : pystr := take n s.

(** [s.startswith(c)] and [s.endswith(c)] for a one-character [c]. *)
Definition startswith (c : N) (s : pystr) : bool :=
  match s with
  | x :: _ => (x =? c)%N
  | [] => false
  end.

Definition endswith (c : N) (s : pystr) : bool := startswith c (rev s).

(** [s[1:-1]]. *)
Definition slice_1_m1 (s : pystr) : pystr := rev (tail (rev (tail s))).

(** [str(n)] of an [int]. *)
Definition str_of_Z (n : Z) : pystr := py (NilZero.string_of_int (Z.to_int n)).

(** ** Exceptions *)

Inductive exn : Type :=
  | RuntimeError (msg : pystr)
  | ValueError (msg : pystr)
  | AttributeError (msg : pystr)
  | IndexError (msg : pystr)
  | HTTPException (status_code : Z) (detail : pystr)
  | Exception (cls : pystr) (msg : pystr).

(** [str(e)]. *)
Definition str_of_exn (e : exn) : pystr :=
  match e with
  | RuntimeError m | ValueError m | AttributeError m | IndexError m => m
  | HTTPException c d => str_of_Z c ++ py ": " ++ d
  | Exception _ m => m
  end.

(** ** The world of [tools.py] *)

(** What one [client.chat.completions.create] call, waited for with
    [fut.result(timeout=...)], does: its message content arrives in time, the
    wait times out ([FuturesTimeoutError]), or the call raises. *)
Inductive outcome : Type :=
  | Returned (content : option pystr)
  | TimedOut
  | Raised (e : exn).

(** The remote service (what its [n]-th call answers to a prompt), the number
    of calls made so far and the durations slept so far, oldest first.
    A duration is the rational its float denotes. *)
Record world : Type := World {
  remote : nat -> pystr -> outcome;
  calls : nat;
  slept : list Q
}.

Inductive result (A : Type) : Type :=
  | Returns (a : A)
  | Raises (e : exn).
Arguments Returns {A} a.
Arguments Raises {A} e.

Definition M (A : Type) : Type := world -> result A * world.

Definition ret {A} (a : A) : M A := fun w => (Returns a, w).

Definition raise {A} (e : exn) : M A := fun w => (Raises e, w).

Definition bind {A B} (m : M A) (f : A -> M B) : M B :=
  fun w =>
    match m w with
    | (Returns a, w') => f a w'
    | (Raises e, w') => (Raises e, w')
    end.

(** [try: m except Exception as e: h e]. *)
Definition try_except {A} (m : M A) (h : exn -> M A) : M A :=
  fun w =>
    match m w with
    | (Returns a, w') => (Returns a, w')
    | (Raises e, w') => h e w'
    end.

Declare Scope py_scope.
Delimit Scope py_scope with py.
Notation "x <- m ;; k" := (bind m (fun x => k))
  (at level 100, m at next level, right associativity) : py_scope.
Notation "m ;;; k" := (bind m (fun _ => k))
  (at level 100, right associativity) : py_scope.
Local Open Scope py_scope.

(** [ex.submit(_call)] then [fut.result(timeout=timeout)]. *)
Definition submit_and_wait (prompt : pystr) : M outcome :=
  fun w =>
    (Returns (remote w (calls w) prompt),
     {| remote := remote w; calls := S (calls w); slept := slept w |}).

(** [range(a, b)]. *)
Definition range (a b : Z) : list Z :=
  (fun i => a + Z.of_nat i) <$> seq 0 (Z.to_nat (b - a)).

(** ** Python values *)

(** The objects [json.loads] builds. A [float] is kept as the number literal
    it was read from; a [dict] keeps its keys in insertion order. *)
Inductive pyval : Type :=
  | PyNone
  | PyBool (b : bool)
  | PyInt (n : Z)
  | PyFloat (lit : pystr)
  | PyStr (s : pystr)
  | PyList (l : list pyval)
  | PyDict (d : list (pystr * pyval)).

Abbreviation pydict := (list (pystr * pyval)).

(** [a == b] on [str]. *)
Fixpoint str_eqb (a b : pystr) : bool :=
  match a, b with
  | [], [] => true
  | x :: a', y :: b' => (x =? y)%N && str_eqb a' b'
  | _, _ => false
  end.

(** [k in d] with its value. *)
Fixpoint dict_lookup (k : pystr) (d : pydict) : option pyval :=
  match d with
  | [] => None
  | (k', v) :: d' => if str_eqb k' k then Some v else dict_lookup k d'
  end.

(** [d.get(k)] and [d.get(k, dflt)]. *)
Definition dict_get (k : pystr) (d : pydict) : pyval :=
  default PyNone (dict_lookup k d).

Definition dict_get_or (k : pystr) (dflt : pyval) (d : pydict) : pyval :=
  default dflt (dict_lookup k d).

(** [d[k] = v]: a key already there keeps its place. *)
Fixpoint dict_set (k : pystr) (v : pyval) (d : pydict) : pydict :=
  match d with
  | [] => [(k, v)]
  | (k', v') :: d' =>
      if str_eqb k' k then (k', v) :: d' else (k', v') :: dict_set k v d'
  end.

(** [d.setdefault(k, v)], for its effect on [d]. *)
Definition dict_setdefault (k : pystr) (v : pyval) (d : pydict) : pydict :=
  match dict_lookup k d with
  | Some _ => d
  | None => dict_set k v d
  end.

(** [type(v).__name__]. *)
Definition type_name (v : pyval) : pystr :=
  match v with
  | PyNone => py "NoneType"
  | PyBool _ => py "bool"
  | PyInt _ => py "int"
  | PyFloat _ => py "float"
  | PyStr _ => py "str"
  | PyList _ => py "list"
  | PyDict _ => py "dict"
  end.

(** The [AttributeError] of [v.get] on a value that has no such attribute. *)
Definition no_attribute (v : pyval) (attr : pystr) : exn :=
  AttributeError (py "'" ++ type_name v ++ py "' object has no attribute '"
                  ++ attr ++ py "'").

(** ** The Python library

    What [tools.py] uses of the standard library and cannot be read from the
    repository: the JSON decoder, the [unicode_escape] codec, the builtins
    on floats and text, the float power and [time.sleep]. For the first
    five, [None] stands for a raised exception. A float is the rational it
    denotes. The development holds for every such library. *)
Class PyLib : Type := {
  (** [json.loads(s)] *)
  json_loads : pystr -> option pyval;
  (** [s.encode('utf-8').decode('unicode_escape')] *)
  unicode_escape : pystr -> option pystr;
  (** [bool(x)] of the float read from a literal *)
  float_bool : pystr -> bool;
  (** [int(x)] of the float read from a literal *)
  float_int : pystr -> option Z;
  (** [int(s)] of a [str] *)
  int_of_str : pystr -> option Z;
  (** [repr(v)] of a float, a list or a dict *)
  py_repr : pyval -> pystr;
  (** [x ** n] of a float [x] and an [int] [n]: the float, or the exception
      raised (the power is the C library's, and overflows) *)
  float_pow : Q -> Z -> result Q;
  (** the exception [time.sleep(d)] raises for the float [d], if it raises:
      what it accepts depends on the platform's clock *)
  sleep_error : Q -> option exn
}.

Section Builtins.

Context {L : PyLib}.

(** [bool(v)]: the truth value tested by [if v] and [not v]. *)
Definition truthy (v : pyval) : bool :=
  match v with
  | PyNone => false
  | PyBool b => b
  | PyInt n => negb (n =? 0)
  | PyFloat lit => float_bool lit
  | PyStr s => match s with [] => false | _ => true end
  | PyList l => match l with [] => false | _ => true end
  | PyDict d => match d with [] => false | _ => true end
  end.

(** [int(v)]; a [TypeError], [ValueError] or [OverflowError] is [None]. *)
Definition py_int (v : pyval) : option Z :=
  match v with
  | PyNone => None
  | PyBool b => Some (if b then 1 else 0)
  | PyInt n => Some n
  | PyFloat lit => float_int lit
  | PyStr s => int_of_str s
  | PyList _ | PyDict _ => None
  end.

(** [str(v)]. *)
Definition py_str (v : pyval) : pystr :=
  match v with
  | PyNone => py "None"
  | PyBool b => if b then py "True" else py "False"
  | PyInt n => str_of_Z n
  | PyStr s => s
  | PyFloat _ | PyList _ | PyDict _ => py_repr v
  end.

End Builtins.

(** ** Configuration ([LLM_INVOKE_TIMEOUT], [LLM_INVOKE_RETRIES],
    [LLM_BACKOFF_FACTOR], read from the environment at import)

    The factor is a finite float; [inf] and [nan], which [float()] reads as
    well, are left out. *)

Record config : Type := Config {
  LLM_INVOKE_TIMEOUT : Z;
  LLM_INVOKE_RETRIES : Z;
  LLM_BACKOFF_FACTOR : Q
}.

(** The defaults of [tools.py]: 120 seconds, 2 retries, factor 2.0. *)
Definition default_config : config :=
  {| LLM_INVOKE_TIMEOUT := 120; LLM_INVOKE_RETRIES := 2; LLM_BACKOFF_FACTOR := 2 |}.

Section Invoke.

Context {L : PyLib}.
Variable cfg : config.

(** [timeout or LLM_INVOKE_TIMEOUT]. *)
Definition effective_timeout (timeout : option Z) : Z :=
  match timeout with
  | Some t => if t =? 0 then LLM_INVOKE_TIMEOUT cfg else t
  | None => LLM_INVOKE_TIMEOUT cfg
  end.

(** [1 + max(0, LLM_INVOKE_RETRIES)]. *)
Definition attempts : Z := 1 + Z.max 0 (LLM_INVOKE_RETRIES cfg).

(** [LLM_BACKOFF_FACTOR ** (attempt - 1)]: a float power, which can raise. *)
Definition backoff (attempt : Z) : M Q :=
  fun w => (float_pow (LLM_BACKOFF_FACTOR cfg) (attempt - 1), w).

(** [time.sleep(d)]: it raises at once, or the duration is slept. *)
Definition time_sleep (d : Q) : M unit :=
  fun w =>
    match sleep_error d with
    | Some e => (Raises e, w)
    | None =>
        (Returns tt,
         {| remote := remote w; calls := calls w; slept := slept w ++ [d] |})
    end.

Definition timed_out_error (timeout : Z) : exn :=
  RuntimeError (py "LLM call timed out after " ++ str_of_Z timeout
                ++ py " seconds (attempts=" ++ str_of_Z attempts ++ py ")").

Definition invocation_failed_error (attempt : Z) (e : exn) : exn :=
  RuntimeError (py "LLM invocation failed after " ++ str_of_Z attempt
                ++ py " attempts: " ++ str_of_exn e).

(** The body of [for attempt in range(1, attempts + 1)], over the attempt
    numbers still to run. A loop that runs out returns [None]. An exception
    of the power or of [time.sleep], raised inside an [except] clause, is
    caught by no clause and leaves the function. *)
Fixpoint for_attempt (prompt : pystr) (timeout : Z) (todo : list Z)
  : M (option pystr) :=
  match todo with
  | [] => ret None
  | attempt :: todo' =>
      o <- submit_and_wait prompt ;;
      match o with
      | Returned resp => ret resp
      | TimedOut =>
          if attempt <? attempts
          then d <- backoff attempt ;; time_sleep d ;;;
               for_attempt prompt timeout todo'
          else raise (timed_out_error timeout)
      | Raised e =>
          if attempt <? attempts
          then d <- backoff attempt ;; time_sleep d ;;;
               for_attempt prompt timeout todo'
          else raise (invocation_failed_error attempt e)
      end
  end.

Definition _invoke_with_timeout (prompt : pystr) (timeout : option Z)
  : M (option pystr) :=
  for_attempt prompt (effective_timeout timeout) (range 1 (attempts + 1)).

End Invoke.

(** ** Regular expressions of [tools.py] *)

(** The text from the first [c] on, if any. *)
Fixpoint from_first (c : N) (s : pystr) : option pystr :=
  match s with
  | [] => None
  | x :: s' => if (x =? c)%N then Some s else from_first c s'
  end.

(** [re.search(r"\{[\s\S]*\}", text)] and its [group(0)]: from the first
    opening brace to the last closing brace after it. *)
Definition search_braces (text : pystr) : option pystr :=
  match from_first (chr "{") text with
  | Some (open :: rest) =>
      match from_first (chr "}") (rev rest) with
      | Some kept => Some (open :: rev kept)
      | None => None
      end
  | _ => None
  end.

(** [s.startswith(pat)]. *)
Fixpoint starts_with (pat s : pystr) : bool :=
  match pat, s with
  | [], _ => true
  | p :: pat', x :: s' => (x =? p)%N && starts_with pat' s'
  | _ :: _, [] => false
  end.

(** The text after, and the text before, the first occurrence of [pat]. *)
Fixpoint after_first (pat s : pystr) : option pystr :=
  if starts_with pat s then Some (drop (length pat) s)
  else match s with
       | [] => None
       | _ :: s' => after_first pat s'
       end.

Fixpoint before_first (pat s : pystr) : option pystr :=
  if starts_with pat s then Some []
  else match s with
       | [] => None
       | x :: s' => cons x <$> before_first pat s'
       end.

(** [re.search(r"<JSON>([\s\S]*?)</JSON>", text)] and its [group(1)]. *)
Definition search_json_tags (text : pystr) : option pystr :=
  match after_first (py "<JSON>") text with
  | Some rest => before_first (py "</JSON>") rest
  | None => None
  end.

(** [re.split(r"[\n;,]", v)]. *)
Definition is_list_separator (c : N) : bool :=
  ((c =? 10) || (c =? chr ";") || (c =? chr ","))%N.

Definition split_list_text (v : pystr) : list pystr :=
  split_on is_list_separator [] v.

(** ** [tools.py]: question generation and answer evaluation

    [print] calls are left out: nothing reads what they write. *)

Definition quote : N := 34%N.
Definition apostrophe : N := 39%N.
Definition nl : pystr := [10%N].
Definition dq : pystr := [quote].

(** [llm = True]. *)
Definition llm : bool := true.

Section Tools.

Context {L : PyLib}.
Variable cfg : config.

Definition question_prompt (job_description : pystr) : pystr :=
  py "You are an expert interviewer." ++ nl
  ++ py "Given the following job description, extract the fields: "
  ++ py "role, seniority, skills, job_type, location, and then produce ONE concise, relevant interview question "
  ++ py "tailored to the role." ++ nl ++ py "Return a JSON object with keys: "
  ++ dq ++ py "role" ++ dq ++ py ", " ++ dq ++ py "seniority" ++ dq ++ py ", "
  ++ dq ++ py "skills" ++ dq ++ py ", " ++ dq ++ py "job_type" ++ dq ++ py ", "
  ++ dq ++ py "location" ++ dq ++ py ", " ++ dq ++ py "question" ++ dq
  ++ py " and nothing else." ++ nl ++ nl
  ++ py "Job Description:" ++ nl ++ job_description ++ nl ++ nl
  ++ py "Respond with JSON only.".

(** The extraction written out inside [generate_question]: the whole text,
    else the brace block. *)
Definition question_extract (text : pystr) : pyval :=
  match json_loads text with
  | Some parsed => parsed
  | None =>
      match search_braces text with
      | Some block => default PyNone (json_loads block)
      | None => PyNone
      end
  end.

(** [xs[0]]. *)
Definition first_item (xs : list pystr) : M pystr :=
  match xs with
  | x :: _ => ret x
  | [] => raise (IndexError (py "list index out of range"))
  end.

(** The record built under [if not parsed]. *)
Definition fallback_question (first_word : pystr) : pystr :=
  py "Based on the job description, can you tell me about your experience related to "
  ++ first_word ++ py "?".

Definition fallback_record (job_description : pystr) : M pyval :=
  role_line <- first_item (split_on (fun c => (c =? 10)%N) [] job_description) ;;
  first_word <- first_item (split_whitespace job_description) ;;
  ret (PyDict [(py "role", PyStr (slice_to 60 role_line));
               (py "seniority", PyStr (py "unspecified"));
               (py "skills", PyStr []);
               (py "job_type", PyStr (py "unspecified"));
               (py "location", PyStr (py "unspecified"));
               (py "question", PyStr (fallback_question first_word))]).

(** [parsed.get('question') if isinstance(parsed.get('question'), str)
    else str(parsed.get('question', '')).strip()]. *)
Definition question_of (parsed : pyval) : M pystr :=
  match parsed with
  | PyDict d =>
      match dict_get (py "question") d with
      | PyStr q => ret q
      | _ => ret (strip (py_str (dict_get_or (py "question") (PyStr []) d)))
      end
  | _ => raise (no_attribute parsed (py "get"))
  end.

Definition generate_question (job_description : pystr) : M pyval :=
  if negb llm
  then raise (RuntimeError (py "LLM not initialized. Ensure OpenAI API key is set."))
  else
    try_except
      (resp <- _invoke_with_timeout cfg (question_prompt job_description) None ;;
       let text := strip (default [] resp) in
       let parsed := question_extract text in
       parsed <- (if negb (truthy parsed)
                  then fallback_record job_description
                  else ret parsed) ;;
       question <- question_of parsed ;;
       ret (PyDict [(py "question", PyStr question); (py "parsed", parsed)]))
      (fun e => raise (RuntimeError (py "Failed to generate question: "
                                     ++ str_of_exn e))).

(** [(text.startswith('"') and text.endswith('"')) or
    (text.startswith("'") and text.endswith("'"))]. *)
Definition quote_wrapped (text : pystr) : bool :=
  startswith quote text && endswith quote text
  || startswith apostrophe text && endswith apostrophe text.

(** The second attempt of [_extract_json]: a text wrapped in quotes is
    stripped of them, unescaped and parsed; [None] when this gives nothing. *)
Definition unquoted_parse (text : pystr) : option pyval :=
  if quote_wrapped text
  then match unicode_escape (slice_1_m1 text) with
       | Some unq => json_loads unq
       | None => None
       end
  else None.

(** [_extract_json], nested in [evaluate_answer]: the whole text (a string
    result is parsed once more), else the unquoted text, else the brace
    block, as it stands and then unescaped; [None] when nothing parses. *)
Definition _extract_json (text : pystr) : pyval :=
  match json_loads text with
  | Some (PyStr inner) => default PyNone (json_loads inner)
  | Some parsed => parsed
  | None =>
      match unquoted_parse text with
      | Some parsed => parsed
      | None =>
          match search_braces text with
          | Some cand =>
              match json_loads cand with
              | Some parsed => parsed
              | None =>
                  match unicode_escape cand with
                  | Some cand2 => default PyNone (json_loads cand2)
                  | None => PyNone
                  end
              end
          | None => PyNone
          end
      end
  end.

(** [_ensure_list], nested in [_validate_feedback]. *)
Definition _ensure_list (v : pyval) : list pyval :=
  match v with
  | PyNone => []
  | PyList l => l
  | PyStr s =>
      (fun part => PyStr (strip part))
        <$> filter (fun part => strip part <> []) (split_list_text s)
  | _ => [PyStr (py_str v)]
  end.

(** [int(d.get('rating')) if d.get('rating') is not None else None] under
    its [try]; an exception gives [None]. *)
Definition rating_of (d : pyval) : pyval :=
  match d with
  | PyDict kv =>
      match dict_get (py "rating") kv with
      | PyNone => PyNone
      | r => match py_int r with
             | Some n => PyInt n
             | None => PyNone
             end
      end
  | _ => PyNone
  end.

(** [_validate_feedback], nested in [evaluate_answer]. On a value that is
    not a dict the rating is [None] (its [try] catches the error) and the
    next [d.get] raises. *)
Definition _validate_feedback (d : pyval) : M pydict :=
  let out := dict_set (py "rating") (rating_of d) [] in
  match d with
  | PyDict kv =>
      let out := dict_set (py "strengths") (PyList (_ensure_list (dict_get (py "strengths") kv))) out in
      let out := dict_set (py "weaknesses") (PyList (_ensure_list (dict_get (py "weaknesses") kv))) out in
      let out := dict_set (py "suggestions") (PyList (_ensure_list (dict_get (py "suggestions") kv))) out in
      ret out
  | _ => raise (no_attribute d (py "get"))
  end.

Definition eval_prompt (question answer : pystr) : pystr :=
  py "You are an expert interviewer and evaluator." ++ nl
  ++ py "Question: " ++ question ++ nl
  ++ py "Candidate Answer: " ++ answer ++ nl ++ nl
  ++ py "Return ONLY valid JSON with the exact keys: rating (0-10 integer), strengths (list of short strings), "
  ++ py "weaknesses (list of short strings), suggestions (list of short strings). Do not include any other text.".

Definition retry_prompt (question answer : pystr) : pystr :=
  py "Please provide the same JSON output, and wrap it between <JSON> and </JSON> tags with no other text."
  ++ nl ++ py "Question: " ++ question ++ nl
  ++ py "Candidate Answer: " ++ answer ++ nl ++ nl
  ++ py "Return only: <JSON>{...}</JSON>".

Definition evaluate_answer (question answer : pystr) : M pyval :=
  if negb llm
  then raise (RuntimeError (py "LLM not initialized properly. Please check if OpenAI key is valid."))
  else
    try_except
      (response <- _invoke_with_timeout cfg (eval_prompt question answer) None ;;
       let text := strip (default [] response) in
       let parsed := _extract_json text in
       parsed <- (match parsed with
                  | PyNone =>
                      resp2 <- _invoke_with_timeout cfg (retry_prompt question answer) None ;;
                      let text2 := strip (default [] resp2) in
                      match search_json_tags text2 with
                      | Some inner => ret (_extract_json inner)
                      | None => ret PyNone
                      end
                  | _ => ret parsed
                  end) ;;
       match parsed with
       | PyNone => ret (PyDict [(py "raw_feedback", PyStr text)])
       | _ =>
           validated <- _validate_feedback parsed ;;
           ret (PyDict (dict_set (py "raw") parsed validated))
       end)
      (fun e => raise (RuntimeError (py "Failed to evaluate answer: "
                                     ++ str_of_exn e))).

(** The record returned when [evaluate_answer] raised or gave no dict. *)
Definition failed_feedback (answer : pystr) : pyval :=
  PyDict [(py "rating", PyNone);
          (py "strengths", PyList []);
          (py "weaknesses", PyList []);
          (py "suggestions", PyList []);
          (py "raw_feedback",
           PyStr (py "LLM failed or returned invalid JSON for answer: "
                  ++ slice_to 200 answer))].

Definition evaluate_answer_safe (question answer : pystr) : M pyval :=
  fb <- try_except (evaluate_answer question answer) (fun _ => ret PyNone) ;;
  match fb with
  | PyDict ((_ :: _) as d) =>
      let d := dict_setdefault (py "rating") PyNone d in
      let d := dict_setdefault (py "strengths") (PyList []) d in
      let d := dict_setdefault (py "weaknesses") (PyList []) d in
      let d := dict_setdefault (py "suggestions") (PyList []) d in
      let d := dict_setdefault (py "raw_feedback") PyNone d in
      ret (PyDict d)
  | _ => ret (failed_feedback answer)
  end.

End Tools.

(** ** The records as the specification words them *)

Section SpecWords.

Context {L : PyLib}.

(** The separators of the specification: newline, semicolon, comma. *)
Definition spec_separators : list N := [10; 59; 44]%N.

Definition spec_is_separator (c : N) : bool := bool_decide (c ∈ spec_separators).

(** The segments of a text: what lies before the first separator, between
    two separators that follow each other, and after the last one. *)
Fixpoint spec_segments (s : pystr) : list pystr :=
  match s with
  | [] => [[]]
  | c :: s' =>
      if spec_is_separator c then [] :: spec_segments s'
      else match spec_segments s' with
           | seg :: rest => (c :: seg) :: rest
           | [] => [[c]]
           end
  end.

(** A text without the whitespace at its start, and at its end. *)
Fixpoint spec_trim_start (s : pystr) : pystr :=
  match s with
  | [] => []
  | c :: s' => if isspace c then spec_trim_start s' else c :: s'
  end.

Fixpoint spec_trim_end (s : pystr) : pystr :=
  match s with
  | [] => []
  | c :: s' =>
      match spec_trim_end s' with
      | [] => if isspace c then [] else [c]
      | kept => c :: kept
      end
  end.

Definition spec_trim (s : pystr) : pystr := spec_trim_end (spec_trim_start s).

(** The integer coercion: an integer is itself, a boolean is 0 or 1, a float
    is cut to its integer part, a text is read as an integer; nothing else,
    and no text that is not an integer, has one. *)
Definition spec_integer (v : pyval) : option Z :=
  match v with
  | PyInt n => Some n
  | PyBool true => Some 1
  | PyBool false => Some 0
  | PyFloat lit => float_int lit
  | PyStr s => int_of_str s
  | PyNone | PyList _ | PyDict _ => None
  end.

(** The string form of a value that is neither null, a text nor a list. *)
Definition spec_string_form (v : pyval) : pystr :=
  match v with
  | PyBool true => py "True"
  | PyBool false => py "False"
  | PyInt n => str_of_Z n
  | other => py_repr other
  end.

(** The list coercion of the specification: a list passes through; a text is
    split on line feed, semicolon and comma into its trimmed segments, the
    empty ones dropped; an absent or null value is the empty list; any other
    value is the one-element list of its string form. *)
Definition coerce_list_spec (v : option pyval) : list pyval :=
  match v with
  | None | Some PyNone => []
  | Some (PyList l) => l
  | Some (PyStr s) =>
      PyStr <$> filter (fun seg => seg <> []) (spec_trim <$> spec_segments s)
  | Some other => [PyStr (spec_string_form other)]
  end.

(** The rating of the specification: the integer coercion of the value, null
    when the key is absent, the value is null or the coercion fails. *)
Definition coerce_rating_spec (v : option pyval) : pyval :=
  match v with
  | None | Some PyNone => PyNone
  | Some r => match spec_integer r with
              | Some n => PyInt n
              | None => PyNone
              end
  end.

End SpecWords.

Section Routes.

Context {L : PyLib}.

(** The texts on which [_extract_json] goes no further than the extraction
    inside [generate_question] does: the whole text parses to a value that is
    not a string; or it does not parse, the quote-stripping attempt gives
    nothing and the brace block, when there is one, parses as it stands. *)
Definition same_route (text : pystr) : bool :=
  match json_loads text with
  | Some (PyStr _) => false
  | Some _ => true
  | None =>
      match unquoted_parse text with
      | Some _ => false
      | None =>
          match search_braces text with
          | Some block =>
              match json_loads block with
              | Some _ => true
              | None => false
              end
          | None => true
          end
      end
  end.

End Routes.

(** The JSON text of an object with one key and a text under it. *)
Definition json_object_text (key value : pystr) : pystr :=
  py "{" ++ dq ++ key ++ dq ++ py ": " ++ dq ++ value ++ dq ++ py "}".

(** A remote service that answers every call, in time, with [text]. *)
Definition answering (text : pystr) : world :=
  {| remote := fun _ _ => Returned (Some text); calls := 0; slept := [] |}.

Definition is_int_or_none (v : pyval) : bool :=
  match v with PyNone | PyInt _ => true | _ => false end.

Definition is_list (v : pyval) : bool :=
  match v with PyList _ => true | _ => false end.

Definition is_str_or_none (v : pyval) : bool :=
  match v with PyNone | PyStr _ => true | _ => false end.

(** A dict with the five keys of a feedback record: [rating] an integer or
    [None], the three list fields lists, [raw_feedback] a text or [None]. *)
Definition has_feedback_shape (v : pyval) : bool :=
  match v with
  | PyDict d =>
      match dict_lookup (py "rating") d, dict_lookup (py "strengths") d,
            dict_lookup (py "weaknesses") d, dict_lookup (py "suggestions") d,
            dict_lookup (py "raw_feedback") d with
      | Some r, Some st, Some wk, Some sg, Some rf =>
          is_int_or_none r && is_list st && is_list wk && is_list sg
          && is_str_or_none rf
      | _, _, _, _, _ => false
      end
  | _ => false
  end.

(** ** [api.py]: the session orchestrator *)

Inductive session_status : Type := Pending | Ready | Error.

Inductive evaluation_status : Type := EvalIdle | EvalPending | EvalReady | EvalError.

(** [session['evaluation']]. *)
Record evaluation_state : Type := EvaluationState {
  eval_status : evaluation_status;
  last_feedback : pyval;
  next_question : pyval;
  eval_error : option pystr
}.

(** One entry of [session['answers']]. *)
Record answer_entry : Type := AnswerEntry {
  entry_question : pystr;
  entry_answer : pystr;
  entry_feedback : pyval
}.

(** One value of [INTERVIEW_SESSIONS]. *)
Record session : Type := Session {
  job_description : pystr;
  parsed : pyval;
  questions : list pyval;
  answers : list answer_entry;
  log : list pystr;
  status : session_status;
  error : option pystr;
  evaluation : evaluation_state
}.

(** What [background_tasks.add_task] was given. *)
Inductive task : Type :=
  | BgGenerateFirstQuestion (session_id : pystr)
  | BgEvaluateAnswer (session_id question answer : pystr).

Record StartInterviewResponse : Type := {
  response_session_id : pystr;
  response_question : pystr
}.

(** The dict returned by [status]. *)
Record StatusResponse : Type := {
  status_session_id : pystr;
  status_status : session_status;
  status_question : pyval;
  status_error : option pystr;
  status_evaluation : evaluation_state;
  status_log : list pystr
}.

Definition log_append (entry : pystr) (s : session) : session :=
  {| job_description := job_description s; parsed := parsed s;
     questions := questions s; answers := answers s;
     log := log s ++ [entry];
     status := status s; error := error s; evaluation := evaluation s |}.

Definition set_parsed (v : pyval) (s : session) : session :=
  {| job_description := job_description s; parsed := v;
     questions := questions s; answers := answers s; log := log s;
     status := status s; error := error s; evaluation := evaluation s |}.

Definition questions_append (q : pyval) (s : session) : session :=
  {| job_description := job_description s; parsed := parsed s;
     questions := questions s ++ [q]; answers := answers s; log := log s;
     status := status s; error := error s; evaluation := evaluation s |}.

Definition answers_append (a : answer_entry) (s : session) : session :=
  {| job_description := job_description s; parsed := parsed s;
     questions := questions s; answers := answers s ++ [a]; log := log s;
     status := status s; error := error s; evaluation := evaluation s |}.

Definition set_status (st : session_status) (s : session) : session :=
  {| job_description := job_description s; parsed := parsed s;
     questions := questions s; answers := answers s; log := log s;
     status := st; error := error s; evaluation := evaluation s |}.

Definition set_error (e : option pystr) (s : session) : session :=
  {| job_description := job_description s; parsed := parsed s;
     questions := questions s; answers := answers s; log := log s;
     status := status s; error := e; evaluation := evaluation s |}.

Definition set_evaluation (ev : evaluation_state) (s : session) : session :=
  {| job_description := job_description s; parsed := parsed s;
     questions := questions s; answers := answers s; log := log s;
     status := status s; error := error s; evaluation := ev |}.

Definition set_eval_status (st : evaluation_status) (s : session) : session :=
  set_evaluation
    {| eval_status := st; last_feedback := last_feedback (evaluation s);
       next_question := next_question (evaluation s);
       eval_error := eval_error (evaluation s) |} s.

Definition set_eval_error (e : option pystr) (s : session) : session :=
  set_evaluation
    {| eval_status := eval_status (evaluation s);
       last_feedback := last_feedback (evaluation s);
       next_question := next_question (evaluation s);
       eval_error := e |} s.

Definition set_last_feedback (v : pyval) (s : session) : session :=
  set_evaluation
    {| eval_status := eval_status (evaluation s); last_feedback := v;
       next_question := next_question (evaluation s);
       eval_error := eval_error (evaluation s) |} s.

Definition set_next_question (v : pyval) (s : session) : session :=
  set_evaluation
    {| eval_status := eval_status (evaluation s);
       last_feedback := last_feedback (evaluation s);
       next_question := v; eval_error := eval_error (evaluation s) |} s.

(** [len(v)]; a value without a length is [None] (a [TypeError]). *)
Definition py_len (v : pyval) : option nat :=
  match v with
  | PyStr s => Some (length s)
  | PyList l => Some (length l)
  | PyDict d => Some (length d)
  | PyNone | PyBool _ | PyInt _ | PyFloat _ => None
  end.

Module api.

Section Api.

Context {L : PyLib}.

(** [from tools import generate_question, evaluate_answer_safe]: the units
    below are written over the two imported functions, so that they are
    specified for whatever these do, also for an evaluator that raises. *)
Variable generate_question : pystr -> M pyval.
Variable evaluate_answer_safe : pystr -> pystr -> M pyval.

(** The session stored by [start_interview]. *)
Definition new_session (jd : pystr) : session :=
  {| job_description := jd; parsed := PyNone; questions := []; answers := [];
     log := []; status := Pending; error := None;
     evaluation := {| eval_status := EvalIdle; last_feedback := PyNone;
                      next_question := PyNone; eval_error := None |} |}.

(** [start_interview]; [uuid4] is the id [uuid.uuid4()] draws. The result
    is the response or the [HTTPException], the session mapping afterwards
    and the background tasks added. *)
Definition start_interview (req_job_description : option pystr) (uuid4 : pystr)
    (sessions : gmap pystr session)
  : result StartInterviewResponse * gmap pystr session * list task :=
  let jd := default [] req_job_description in
  match strip jd with
  | [] =>
      (Raises (HTTPException 400
                 (py "Please provide a job description or topic for a mock interview.")),
       sessions, [])
  | _ :: _ =>
      let session_id := uuid4 in
      (Returns {| response_session_id := session_id; response_question := [] |},
       <[session_id := new_session jd]> sessions,
       [BgGenerateFirstQuestion session_id])
  end.

(** [qobj.get('question') if isinstance(qobj, dict) else str(qobj)]. *)
Definition question_field (qobj : pyval) : pyval :=
  match qobj with
  | PyDict d => dict_get (py "question") d
  | _ => PyStr (py_str qobj)
  end.

(** [qobj.get('parsed') if isinstance(qobj, dict) else None]. *)
Definition parsed_field (qobj : pyval) : pyval :=
  match qobj with
  | PyDict d => dict_get (py "parsed") d
  | _ => PyNone
  end.

(** The handler of [_bg_generate_first_question]'s [except]. *)
Definition first_question_failed (e : exn) (s : session) : session :=
  log_append (py "bg_generate_first_question: exception: " ++ str_of_exn e)
    (set_error (Some (str_of_exn e)) (set_status Error s)).

(** [_bg_generate_first_question] on the session object it fetched. *)
Definition bg_generate_first_question_on (s : session) (w : world)
  : session * world :=
  let s := log_append (py "bg_generate_first_question: start") s in
  match generate_question (job_description s) w with
  | (Returns qobj, w') =>
      let question := question_field qobj in
      let s := set_parsed (parsed_field qobj) s in
      let s := questions_append question s in
      let s := set_status Ready s in
      let s := set_eval_status EvalIdle s in
      match py_len (if truthy question then question else PyStr []) with
      | Some n =>
          (log_append (py "bg_generate_first_question: question ready ("
                       ++ str_of_Z (Z.of_nat n) ++ py " chars)") s, w')
      | None =>
          (first_question_failed
             (Exception (py "TypeError")
                (py "object of type '" ++ type_name question ++ py "' has no len()")) s,
           w')
      end
  | (Raises e, w') => (first_question_failed e s, w')
  end.

Definition _bg_generate_first_question (session_id : pystr)
    (sessions : gmap pystr session) (w : world)
  : gmap pystr session * world :=
  match sessions !! session_id with
  | None => (sessions, w)
  | Some s =>
      let '(s', w') := bg_generate_first_question_on s w in
      (<[session_id := s']> sessions, w')
  end.

(** [answer_question]. *)
Definition answer_question (session_id question answer : pystr)
    (sessions : gmap pystr session)
  : result (pystr * pystr) * gmap pystr session * list task :=
  match sessions !! session_id with
  | None => (Raises (HTTPException 404 (py "Session not found")), sessions, [])
  | Some s =>
      let s := set_eval_status EvalPending s in
      let s := set_eval_error None s in
      (Returns (py "evaluation_scheduled", session_id),
       <[session_id := s]> sessions,
       [BgEvaluateAnswer session_id question answer])
  end.

(** [feedback.get('raw_feedback') if isinstance(feedback, dict) else None]. *)
Definition raw_feedback_field (feedback : pyval) : pyval :=
  match feedback with
  | PyDict d => dict_get (py "raw_feedback") d
  | _ => PyNone
  end.

(** [_bg_evaluate_answer] on the session object it fetched. *)
Definition bg_evaluate_answer_on (question answer : pystr) (s : session) (w : world)
  : session * world :=
  let s := log_append (py "bg_evaluate_answer: start") s in
  match evaluate_answer_safe question answer w with
  | (Raises e, w') =>
      let s := set_eval_status EvalError s in
      let s := set_eval_error (Some (str_of_exn e)) s in
      (log_append (py "bg_evaluate_answer: exception: " ++ str_of_exn e) s, w')
  | (Returns feedback, w') =>
      let s := log_append (py "bg_evaluate_answer: evaluator returned") s in
      let raw_fb := raw_feedback_field feedback in
      let s := if truthy raw_fb
               then log_append (py "raw_feedback_snippet: "
                                ++ slice_to 400 (py_str raw_fb)) s
               else s in
      let s := answers_append {| entry_question := question;
                                 entry_answer := answer;
                                 entry_feedback := feedback |} s in
      let '(next, w'') :=
        match generate_question (job_description s) w' with
        | (Returns next_qobj, w'') => (question_field next_qobj, w'')
        | (Raises _, w'') => (PyNone, w'')
        end in
      let s := questions_append next s in
      let s := set_eval_status EvalReady s in
      let s := set_last_feedback feedback s in
      let s := set_next_question next s in
      (log_append (py "bg_evaluate_answer: finished, evaluation ready") s, w'')
  end.

Definition _bg_evaluate_answer (session_id question answer : pystr)
    (sessions : gmap pystr session) (w : world)
  : gmap pystr session * world :=
  match sessions !! session_id with
  | None => (sessions, w)
  | Some s =>
      let '(s', w') := bg_evaluate_answer_on question answer s w in
      (<[session_id := s']> sessions, w')
  end.

(** [status]. *)
Definition get_status (session_id : pystr) (sessions : gmap pystr session)
  : result StatusResponse :=
  match sessions !! session_id with
  | None => Raises (HTTPException 404 (py "Session not found"))
  | Some s =>
      Returns {| status_session_id := session_id;
                 status_status := status s;
                 status_question := default PyNone (last (questions s));
                 status_error := error s;
                 status_evaluation := evaluation s;
                 status_log := log s |}
  end.

End Api.

End api.

(** One request or background unit of the orchestrator. *)
Inductive operation : Type :=
  | StartInterview (req_job_description : option pystr) (uuid4 : pystr)
  | AnswerQuestion (session_id question answer : pystr)
  | GetStatus (session_id : pystr)
  | RunGenerateFirstQuestion (session_id : pystr)
  | RunEvaluateAnswer (session_id question answer : pystr).

Section Operations.

Context {L : PyLib}.
Variable generate_question : pystr -> M pyval.
Variable evaluate_answer_safe : pystr -> pystr -> M pyval.

(** The session mapping and the world after an operation. *)
Definition run_operation (o : operation) (sessions : gmap pystr session) (w : world)
  : gmap pystr session * world :=
  match o with
  | StartInterview jd uuid4 => ((api.start_interview jd uuid4 sessions).1.2, w)
  | AnswerQuestion sid q a => ((api.answer_question sid q a sessions).1.2, w)
  | GetStatus _ => (sessions, w)
  | RunGenerateFirstQuestion sid =>
      api._bg_generate_first_question generate_question sid sessions w
  | RunEvaluateAnswer sid q a =>
      api._bg_evaluate_answer generate_question evaluate_answer_safe sid q a sessions w
  end.

End Operations.

(** The moves of [evaluation.status] the specification allows: idle to
    pending, pending to ready or error, ready or error back to pending. *)
Definition allowed_transition (a b : evaluation_status) : bool :=
  match a, b with
  | EvalIdle, EvalPending
  | EvalPending, EvalReady
  | EvalPending, EvalError
  | EvalReady, EvalPending
  | EvalError, EvalPending => true
  | _, _ => false
  end.

(** A job description is blank when it is absent or holds whitespace only. *)
Definition blank (req_job_description : option pystr) : Prop :=
  Forall (fun c => isspace c = true) (default [] req_job_description).

(** Whether an attempt failed: the wait timed out or the call raised. *)
Definition failed (o : outcome) : bool :=
  match o with
  | Returned _ => false
  | TimedOut | Raised _ => true
  end.



(** A session in the middle of an interview: a first question asked and
    answered, a second question asked, and the answer to it submitted. *)
Definition ongoing_session : session :=
  {| job_description := py "Senior backend engineer, Python";
     parsed := PyDict [(py "question", PyStr (py "Why Python?"))];
     questions := [PyStr (py "Why Python?"); PyStr (py "Why Rust?")];
     answers := [{| entry_question := py "Why Python?";
                    entry_answer := py "It is simple";
                    entry_feedback := PyDict [(py "raw_feedback", PyStr (py "ok"))] |}];
     log := [py "bg_generate_first_question: start";
             py "bg_generate_first_question: question ready (11 chars)";
             py "bg_evaluate_answer: start";
             py "bg_evaluate_answer: evaluator returned";
             py "raw_feedback_snippet: ok";
             py "bg_evaluate_answer: finished, evaluation ready"];
     status := Ready;
     error := None;
     evaluation := {| eval_status := EvalPending;
                      last_feedback := PyDict [(py "raw_feedback", PyStr (py "ok"))];
                      next_question := PyStr (py "Why Rust?");
                      eval_error := None |} |}.

(** ** A reference Python library

    A model of CPython's [json.loads], [unicode_escape] codec and builtins,
    to run the embedding on concrete texts. The decoder follows the C scanner
    of the [json] module; resource limits (recursion depth, digits of an
    [int]) are not modelled. *)
Module cpython.

Definition is_digit (c : N) : bool := ((48 <=? c) && (c <=? 57))%N.

Definition hex_value (c : N) : option N :=
  if is_digit c then Some (c - 48)%N
  else if ((97 <=? c) && (c <=? 102))%N then Some (c - 87)%N
  else if ((65 <=? c) && (c <=? 70))%N then Some (c - 55)%N
  else None.

(** The value of the first [n] characters, read as hexadecimal digits. *)
Fixpoint hex_digits (n : nat) (acc : N) (s : pystr) : option (N * pystr) :=
  match n with
  | O => Some (acc, s)
  | S n' =>
      match s with
      | c :: s' =>
          match hex_value c with
          | Some d => hex_digits n' (acc * 16 + d)%N s'
          | None => None
          end
      | [] => None
      end
  end.

(** JSON whitespace: space, tab, line feed, carriage return. *)
Definition is_json_space (c : N) : bool :=
  ((c =? 32) || (c =? 9) || (c =? 10) || (c =? 13))%N.

Fixpoint skip_space (s : pystr) : pystr :=
  match s with
  | c :: s' => if is_json_space c then skip_space s' else s
  | [] => []
  end.

(** The leading decimal digits of [s] and what follows them. *)
Fixpoint span_digits (s : pystr) : pystr * pystr :=
  match s with
  | c :: s' =>
      if is_digit c then let '(ds, rest) := span_digits s' in (c :: ds, rest)
      else ([], s)
  | [] => ([], [])
  end.

(** The value of a run of decimal digits. *)
Definition digits_value (ds : pystr) : Z :=
  foldl (fun acc c => acc * 10 + Z.of_N (c - 48)) 0 ds.

(** [scanstring], after the opening quote: the decoded text and what follows
    the closing quote. Control characters are refused (strict mode); a
    [\uXXXX] high surrogate followed by a [\uXXXX] low one is one character. *)
Fixpoint scanstring (fuel : nat) (acc : pystr) (s : pystr) : option (pystr * pystr) :=
  match fuel with
  | O => None
  | S fuel' =>
      match s with
      | [] => None
      | 34%N :: rest => Some (rev acc, rest)
      | 92%N :: esc :: rest =>
          if (esc =? 117)%N then
            match hex_digits 4 0 rest with
            | Some (u, rest1) =>
                if ((55296 <=? u) && (u <=? 56319))%N then
                  match rest1 with
                  | 92%N :: 117%N :: rest2 =>
                      match hex_digits 4 0 rest2 with
                      | Some (u2, rest3) =>
                          if ((56320 <=? u2) && (u2 <=? 57343))%N
                          then scanstring fuel'
                                 ((65536 + (u - 55296) * 1024 + (u2 - 56320))%N :: acc) rest3
                          else scanstring fuel' (u :: acc) rest1
                      | None => None
                      end
                  | _ => scanstring fuel' (u :: acc) rest1
                  end
                else scanstring fuel' (u :: acc) rest1
            | None => None
            end
          else
            let simple (c : N) := scanstring fuel' (c :: acc) rest in
            if ((esc =? 34) || (esc =? 92) || (esc =? 47))%N then simple esc
            else if (esc =? 98)%N then simple 8%N
            else if (esc =? 102)%N then simple 12%N
            else if (esc =? 110)%N then simple 10%N
            else if (esc =? 114)%N then simple 13%N
            else if (esc =? 116)%N then simple 9%N
            else None
      | c :: rest =>
          if (c <? 32)%N || (c =? 92)%N then None
          else scanstring fuel' (c :: acc) rest
      end
  end.

(** The number at the head of [s], by the scanner's pattern: an optional
    minus sign, then 0 or a digit run that does not start with 0, then
    optionally a point with digits, then optionally e or E with an optional
    sign and digits. Gives its literal, whether it has a fraction or an
    exponent, and what follows it. *)
Definition match_number (s : pystr) : option (pystr * bool * pystr) :=
  let '(sign, s1) := match s with
                     | 45%N :: s' => ([45%N], s')
                     | _ => ([], s)
                     end in
  let integer :=
    match s1 with
    | 48%N :: s' => Some ([48%N], s')
    | c :: _ => if is_digit c then Some (span_digits s1) else None
    | [] => None
    end in
  match integer with
  | None => None
  | Some (int_digits, s2) =>
      let '(frac, s3) :=
        match s2 with
        | 46%N :: s' =>
            match span_digits s' with
            | ([], _) => ([], s2)
            | (ds, rest) => (46%N :: ds, rest)
            end
        | _ => ([], s2)
        end in
      let '(expo, s4) :=
        match s3 with
        | e :: s' =>
            if ((e =? 101) || (e =? 69))%N then
              let '(esign, s'') :=
                match s' with
                | c :: t => if ((c =? 45) || (c =? 43))%N then ([c], t) else ([], s')
                | [] => ([], s')
                end in
              match span_digits s'' with
              | ([], _) => ([], s3)
              | (ds, rest) => (e :: esign ++ ds, rest)
              end
            else ([], s3)
        | [] => ([], s3)
        end in
      Some (sign ++ int_digits ++ frac ++ expo,
            match frac, expo with [], [] => false | _, _ => true end,
            s4)
  end.

(** [int(literal)] of an integer literal of [match_number]. *)
Definition int_of_literal (lit : pystr) : Z :=
  match lit with
  | 45%N :: ds => - digits_value ds
  | ds => digits_value ds
  end.

(** [scan_once] with the object and array parsers: the value at the head of
    [s] and what follows it. *)
Fixpoint scan_once (fuel : nat) (s : pystr) {struct fuel} : option (pyval * pystr) :=
  match fuel with
  | O => None
  | S fuel' =>
      match s with
      | [] => None
      | c :: rest =>
          if (c =? 34)%N then
            match scanstring (S (length rest)) [] rest with
            | Some (text, rest') => Some (PyStr text, rest')
            | None => None
            end
          else if (c =? 123)%N then
            match skip_space rest with
            | 125%N :: rest' => Some (PyDict [], rest')
            | rest' => parse_object fuel' [] rest'
            end
          else if (c =? 91)%N then
            match skip_space rest with
            | 93%N :: rest' => Some (PyList [], rest')
            | rest' => parse_array fuel' [] rest'
            end
          else if starts_with (py "null") s then Some (PyNone, drop 4 s)
          else if starts_with (py "true") s then Some (PyBool true, drop 4 s)
          else if starts_with (py "false") s then Some (PyBool false, drop 5 s)
          else
            match match_number s with
            | Some (lit, is_float, rest') =>
                Some (if is_float then PyFloat lit else PyInt (int_of_literal lit), rest')
            | None =>
                if starts_with (py "NaN") s then Some (PyFloat (py "NaN"), drop 3 s)
                else if starts_with (py "Infinity") s
                     then Some (PyFloat (py "Infinity"), drop 8 s)
                else if starts_with (py "-Infinity") s
                     then Some (PyFloat (py "-Infinity"), drop 9 s)
                else None
            end
      end
  end
with parse_array (fuel : nat) (acc : list pyval) (s : pystr) {struct fuel}
  : option (pyval * pystr) :=
  match fuel with
  | O => None
  | S fuel' =>
      match scan_once fuel' s with
      | Some (v, rest) =>
          match skip_space rest with
          | 93%N :: rest' => Some (PyList (rev (v :: acc)), rest')
          | 44%N :: rest' => parse_array fuel' (v :: acc) (skip_space rest')
          | _ => None
          end
      | None => None
      end
  end
with parse_object (fuel : nat) (acc : pydict) (s : pystr) {struct fuel}
  : option (pyval * pystr) :=
  match fuel with
  | O => None
  | S fuel' =>
      match s with
      | 34%N :: rest =>
          match scanstring (S (length rest)) [] rest with
          | Some (key, rest1) =>
              match skip_space rest1 with
              | 58%N :: rest2 =>
                  match scan_once fuel' (skip_space rest2) with
                  | Some (v, rest3) =>
                      let acc' := dict_set key v acc in
                      match skip_space rest3 with
                      | 125%N :: rest4 => Some (PyDict acc', rest4)
                      | 44%N :: rest4 => parse_object fuel' acc' (skip_space rest4)
                      | _ => None
                      end
                  | None => None
                  end
              | _ => None
              end
          | None => None
          end
      | _ => None
      end
  end.

(** [json.loads(s)]: one value between optional whitespace, nothing else. *)
Definition json_loads (s : pystr) : option pyval :=
  match scan_once (2 * length s + 2) (skip_space s) with
  | Some (v, rest) =>
      match skip_space rest with
      | [] => Some v
      | _ :: _ => None
      end
  | None => None
  end.

(** [s.encode('utf-8')]: the bytes of the text; a surrogate cannot be
    encoded. *)
Definition utf8_char (c : N) : option (list N) :=
  (if c <? 128 then Some [c]
   else if c <? 2048 then Some [192 + c / 64; 128 + c mod 64]
   else if (55296 <=? c) && (c <=? 57343) then None
   else if c <? 65536
        then Some [224 + c / 4096; 128 + (c / 64) mod 64; 128 + c mod 64]
   else if c <? 1114112
        then Some [240 + c / 262144; 128 + (c / 4096) mod 64;
                   128 + (c / 64) mod 64; 128 + c mod 64]
   else None)%N.

Fixpoint utf8_encode (s : pystr) : option (list N) :=
  match s with
  | [] => Some []
  | c :: s' =>
      match utf8_char c, utf8_encode s' with
      | Some bs, Some rest => Some (bs ++ rest)
      | _, _ => None
      end
  end.

Definition is_octal (c : N) : bool := ((48 <=? c) && (c <=? 55))%N.

(** Up to [n] more octal digits after the value [acc]. *)
Fixpoint octal_digits (n : nat) (acc : N) (s : list N) : N * list N :=
  match n, s with
  | S n', c :: s' =>
      if is_octal c then octal_digits n' (acc * 8 + (c - 48))%N s' else (acc, s)
  | _, _ => (acc, s)
  end.

(** [bytes.decode('unicode_escape')]: a byte that is not a backslash is the
    character of that code; the escapes are those of Python string literals.
    A [\N] escape needs the Unicode name table and is answered as an error
    here. *)
Fixpoint decode_unicode_escape (fuel : nat) (acc : pystr) (bs : list N)
  : option pystr :=
  match fuel with
  | O => None
  | S fuel' =>
      match bs with
      | [] => Some (rev acc)
      | 92%N :: [] => None
      | 92%N :: esc :: rest =>
          let simple (c : N) := decode_unicode_escape fuel' (c :: acc) rest in
          let hex (n : nat) :=
            match hex_digits n 0 rest with
            | Some (u, rest') =>
                if (u <? 1114112)%N
                then decode_unicode_escape fuel' (u :: acc) rest'
                else None
            | None => None
            end in
          if (esc =? 10)%N then decode_unicode_escape fuel' acc rest
          else if ((esc =? 92) || (esc =? 39) || (esc =? 34))%N then simple esc
          else if (esc =? 98)%N then simple 8%N
          else if (esc =? 102)%N then simple 12%N
          else if (esc =? 116)%N then simple 9%N
          else if (esc =? 110)%N then simple 10%N
          else if (esc =? 114)%N then simple 13%N
          else if (esc =? 118)%N then simple 11%N
          else if (esc =? 97)%N then simple 7%N
          else if is_octal esc then
            let '(v, rest') := octal_digits 2 (esc - 48)%N rest in
            decode_unicode_escape fuel' (v :: acc) rest'
          else if (esc =? 120)%N then hex 2%nat
          else if (esc =? 117)%N then hex 4%nat
          else if (esc =? 85)%N then hex 8%nat
          else if (esc =? 78)%N then None
          else decode_unicode_escape fuel' (esc :: 92%N :: acc) rest
      | b :: rest => decode_unicode_escape fuel' (b :: acc) rest
      end
  end.

(** [s.encode('utf-8').decode('unicode_escape')]. *)
Definition unicode_escape (s : pystr) : option pystr :=
  match utf8_encode s with
  | Some bs => decode_unicode_escape (S (length bs)) [] bs
  | None => None
  end.

(** The decimal read from a float literal of the decoder: negative or not,
    the digits as one number, and the power of ten that scales it. *)
Definition decimal_of_literal (lit : pystr) : option (bool * Z * Z) :=
  let '(neg, s) := match lit with
                   | 45%N :: s' => (true, s')
                   | _ => (false, lit)
                   end in
  let '(int_digits, s1) := span_digits s in
  let '(frac_digits, s2) := match s1 with
                            | 46%N :: s' => span_digits s'
                            | _ => ([], s1)
                            end in
  let expo :=
    match s2 with
    | [] => Some 0
    | _ :: 45%N :: ds => Some (- digits_value ds)
    | _ :: 43%N :: ds => Some (digits_value ds)
    | _ :: ds => Some (digits_value ds)
    end in
  match int_digits, expo with
  | _ :: _, Some e =>
      Some (neg, digits_value (int_digits ++ frac_digits),
            e - Z.of_nat (length frac_digits))
  | _, _ => None
  end.

(** The binary64 nearest to [m * 10^e] for [m > 0], ties to even, as a
    mantissa [M] and an exponent [E] with value [M * 2^E]; [None] when the
    nearest one is infinite. *)
Definition round_binary64 (m e : Z) : option (Z * Z) :=
  let n := if 0 <=? e then m * 10 ^ e else m in
  let d := if 0 <=? e then 1 else 10 ^ (- e) in
  let l0 := Z.log2 n - Z.log2 d in
  let below := if 0 <=? l0 then n <? d * 2 ^ l0 else n * 2 ^ (- l0) <? d in
  let l := if below then l0 - 1 else l0 in
  let E := Z.max (l - 52) (-1074) in
  let num := if 0 <=? E then n else n * 2 ^ (- E) in
  let den := if 0 <=? E then d * 2 ^ E else d in
  let q := num / den in
  let r := num mod den in
  let M := if den <? 2 * r then q + 1
           else if (2 * r =? den) && Z.odd q then q + 1
           else q in
  let '(M, E) := if M =? 2 ^ 53 then (2 ^ 52, E + 1) else (M, E) in
  if 971 <? E then None else Some (M, E).

(** [bool(x)] of the float of a literal: false for a zero only. *)
Definition float_bool (lit : pystr) : bool :=
  match decimal_of_literal lit with
  | Some (_, m, e) =>
      if m =? 0 then false
      else match round_binary64 m e with
           | Some (M, _) => negb (M =? 0)
           | None => true
           end
  | None => true
  end.

(** [int(x)] of the float of a literal: the integer part; [NaN] and the
    infinities have none. *)
Definition float_int (lit : pystr) : option Z :=
  match decimal_of_literal lit with
  | Some (neg, m, e) =>
      if m =? 0 then Some 0
      else match round_binary64 m e with
           | Some (M, E) =>
               let a := if 0 <=? E then M * 2 ^ E else M / 2 ^ (- E) in
               Some (if neg then - a else a)
           | None => None
           end
  | None => None
  end.

(** [int(s)] of a text in base ten: whitespace around, an optional sign,
    digits with single underscores between them. Only the ASCII digits are
    read as digits here; CPython reads the other decimal digits of Unicode
    as well. *)
Fixpoint int_digits (prev_digit : bool) (acc : Z) (s : pystr) : option Z :=
  match s with
  | [] => if prev_digit then Some acc else None
  | c :: s' =>
      if is_digit c then int_digits true (acc * 10 + Z.of_N (c - 48)) s'
      else if (c =? 95)%N && prev_digit then
        match s' with
        | c' :: _ => if is_digit c' then int_digits false acc s' else None
        | [] => None
        end
      else None
  end.

Definition int_of_str (s : pystr) : option Z :=
  match strip s with
  | 45%N :: ds => Z.opp <$> int_digits false 0 ds
  | 43%N :: ds => int_digits false 0 ds
  | ds => int_digits false 0 ds
  end.

Definition hex_char (d : N) : N := (if d <? 10 then 48 + d else 87 + d)%N.

(** [repr(s)] of a [str]: single quotes unless the text has one and no
    double quote; backslash escapes for the quote, the backslash, line feed,
    carriage return, tab and the other ASCII control characters. Characters
    above ASCII are all printed as they are. *)
Definition repr_str (s : pystr) : pystr :=
  let has c := existsb (fun x => (x =? c)%N) s in
  let q := if has 39%N && negb (has 34%N) then 34%N else 39%N in
  let esc (c : N) : pystr :=
    if ((c =? q) || (c =? 92))%N then [92%N; c]
    else if (c =? 10)%N then py "\n"
    else if (c =? 13)%N then py "\r"
    else if (c =? 9)%N then py "\t"
    else if ((c <? 32) || (c =? 127))%N
         then py "\x" ++ [hex_char (c / 16); hex_char (c mod 16)]
    else [c] in
  q :: concat (esc <$> s) ++ [q].

(** [", ".join(items)]. *)
Fixpoint join_comma (items : list pystr) : pystr :=
  match items with
  | [] => []
  | [x] => x
  | x :: rest => x ++ py ", " ++ join_comma rest
  end.

(** [repr(v)]. The [repr] of a float is its literal here: CPython prints the
    shortest decimal that reads back as the same float, which is the literal
    only when the literal is that decimal ([1.5], not [1.50]). *)
Fixpoint py_repr (v : pyval) : pystr :=
  match v with
  | PyNone => py "None"
  | PyBool b => if b then py "True" else py "False"
  | PyInt n => str_of_Z n
  | PyFloat lit => lit
  | PyStr s => repr_str s
  | PyList l => py "[" ++ join_comma (py_repr <$> l) ++ py "]"
  | PyDict d =>
      py "{"
      ++ join_comma ((fun kv => repr_str kv.1 ++ py ": " ++ py_repr kv.2) <$> d)
      ++ py "}"
  end.

(** [n / d] rounded to the nearest integer, ties to the even one ([0 < d]). *)
Definition round_half_even (n d : Z) : Z :=
  let q := n / d in
  match 2 * (n mod d) ?= d with
  | Lt => q
  | Gt => q + 1
  | Eq => if Z.even q then q else q + 1
  end.

(** The float (binary64: a significand of 53 bits, exponents from [2^-1074]
    on) nearest to a rational, ties to the even significand; [None] when it
    is beyond the largest float. *)
Definition round_double (x : Q) : option Q :=
  let n := Z.abs (Qnum x) in
  let d := Z.pos (Qden x) in
  if n =? 0 then Some 0%Q
  else
    let e0 := Z.log2 n - Z.log2 d in
    let e := if n * 2 ^ Z.max 0 (- e0) <? d * 2 ^ Z.max 0 e0 then e0 - 1 else e0 in
    let u := Z.max (e - 52) (-1074) in
    let m := round_half_even (n * 2 ^ Z.max 0 (- u)) (d * 2 ^ Z.max 0 u) in
    if (1023 <? e) || ((e =? 1023) && (m =? 2 ^ 53)) then None
    else Some (Qred (Qmake (Z.sgn (Qnum x) * m * 2 ^ Z.max 0 u)
                           (Z.to_pos (2 ^ Z.max 0 (- u))))).

(** [x ** n]: the power rounded to the nearest float, as the C library's
    [pow] gives it but for rare arguments; [OverflowError] beyond the largest
    float, [ZeroDivisionError] for a negative power of zero. *)
Definition float_pow (x : Q) (n : Z) : result Q :=
  if (n <? 0) && Qeq_bool x 0
  then Raises (Exception (py "ZeroDivisionError")
                 (py "0.0 cannot be raised to a negative power"))
  else match round_double (x ^ n) with
       | Some y => Returns y
       | None => Raises (Exception (py "OverflowError")
                           (py "(34, 'Numerical result out of range')"))
       end.

(** [time.sleep(d)] in CPython 3.11: a duration of [2^63] nanoseconds or
    more, of either sign, is an [OverflowError], and a negative one a
    [ValueError]. Within seconds of that bound the answer of CPython depends
    on the time the platform's clock shows, which is not modelled. *)
Definition sleep_error (d : Q) : option exn :=
  if Qle_bool (2 ^ 63) (Qabs d * 1000000000)
  then Some (Exception (py "OverflowError")
               (py "timestamp too large to convert to C _PyTime_t"))
  else if Qle_bool 0 d then None
  else Some (ValueError (py "sleep length must be non-negative")).

(** The reference library. *)
Definition lib : PyLib :=
  Build_PyLib json_loads unicode_escape float_bool float_int int_of_str py_repr
    float_pow sleep_error.


End cpython.

(** ** [tools.py]: the heuristic evaluator and the relevance check *)

(** [pat in s] on [str]. *)
Fixpoint contains (pat s : pystr) : bool :=
  starts_with pat s
  || match s with
     | [] => false
     | _ :: s' => contains pat s'
     end.

(** [int(x)] of a float read exactly as a rational: its integer part. *)
Definition int_of_Q (q : Q) : Z := Z.quot (Qnum q) (Z.pos (Qden q)).

(** [str.lower()] on ASCII text. *)
Definition ascii_lower (s : pystr) : pystr :=
  (fun c => if ((65 <=? c) && (c <=? 90))%N then (c + 32)%N else c) <$> s.

(** The dict every evaluator returns, its keys in this order. *)
Definition feedback_record (rating : pyval)
    (strengths weaknesses suggestions : list pystr) (raw_feedback : pyval) : pyval :=
  PyDict [(py "rating", rating);
          (py "strengths", PyList (PyStr <$> strengths));
          (py "weaknesses", PyList (PyStr <$> weaknesses));
          (py "suggestions", PyList (PyStr <$> suggestions));
          (py "raw_feedback", raw_feedback)].

Definition quick_keywords : list pystr :=
  [py "design"; py "scale"; py "latency"; py "throughput"; py "test";
   py "monitor"; py "debug"; py "optimiz"; py "performance"; py "deploy";
   py "ci"; py "cd"; py "api"; py "database"; py "cache"; py "security";
   py "team"; py "lead"].

Definition star_keywords : list pystr :=
  [py "situation"; py "task"; py "action"; py "result"; py "impact";
   py "resulted"; py "led to"; py "we"].

Definition impact_words : list pystr :=
  [py "percent"; py "%"; py "x times"; py "increase"; py "decrease"].

Definition example_words : list pystr :=
  [py "example"; py "we"; py "i"; py "led"; py "implemented"; py "built"].

Definition relevance_keywords : list pystr :=
  [py "engineer"; py "developer"; py "analyst"; py "manager"; py "lead";
   py "senior"; py "junior"; py "data"; py "software"; py "role";
   py "responsibilities"; py "requirements"; py "skills"].

Section Heuristics.

Context {L : PyLib}.
Variable cfg : config.

(** [str.lower()]: it needs the Unicode case tables, and is a parameter. *)
Variable lower : pystr -> pystr.

(** [any(w in lowered for w in words)]. *)
Definition any_in (words : list pystr) (lowered : pystr) : bool :=
  existsb (fun w => contains w lowered) words.

(** The length branch of [evaluate_answer_quick]: the strength or the
    weakness it appends, and [length_score]. *)
Definition length_branch (words : nat) : list pystr * list pystr * Z :=
  if (40 <? words)%nat then ([py "Answer has good detail"], [], 7)
  else if (15 <? words)%nat then ([py "Answer is reasonably detailed"], [], 5)
  else ([], [py "Answer is short; add an example or more specifics"], 3).

(** [min(10, max(1, int((len(hits) * 1.5) + (length_score or 0))))]; the
    product and the sum are exact in floating point at these sizes. *)
Definition quick_rating (hits : nat) (length_score : Z) : Z :=
  Z.min 10 (Z.max 1 (int_of_Q (inject_Z (Z.of_nat hits) * (3 # 2)
                               + inject_Z (if length_score =? 0 then 0 else length_score)))).

(** [evaluate_answer_quick]. [answer] is any value: under [answer or ""] a
    value that is true and has no [strip] raises, and the handler answers. *)
Definition evaluate_answer_quick (question : pystr) (answer : pyval) : pyval :=
  match (if truthy answer then answer else PyStr []) with
  | PyStr s =>
      match strip s with
      | [] =>
          feedback_record (PyInt 1) [] [py "No answer provided"]
            [py "Provide a concise answer describing your approach or example."]
            PyNone
      | (_ :: _) as text =>
          let lowered := lower text in
          let hits := filter (fun k => contains k lowered = true) quick_keywords in
          let mentions := (fun h => py "Mentions: " ++ h) <$> take 5 hits in
          let '(detail, short, length_score) :=
            length_branch (length (split_whitespace text)) in
          let star :=
            if any_in star_keywords lowered
            then [py "Uses STAR-style structure or gives concrete impact"]
            else [] in
          let rating := quick_rating (length hits) length_score in
          let measurable :=
            if negb (contains (py "%") text) && negb (any_in impact_words lowered)
            then [py "Include measurable impact (e.g., reduced latency by 30%)."]
            else [] in
          let concrete :=
            if negb (any_in example_words lowered)
            then [py "Add a concrete example with steps and outcome."]
            else [] in
          feedback_record (PyInt rating) (mentions ++ detail ++ star) short
            (measurable ++ concrete) PyNone
      end
  | other =>
      feedback_record PyNone [] [py "Quick evaluator failed"]
        [py "Try again or wait for full evaluation."]
        (PyStr (py "quick-eval-exception: "
                ++ str_of_exn (no_attribute other (py "strip"))))
  end.

Definition relevance_prompt (user_input : pystr) : pystr :=
  py "Is the following text a job description for a role (answer yes or no)?"
  ++ nl ++ nl ++ user_input ++ nl ++ nl ++ py "Answer only 'yes' or 'no'.".

(** [check_relevant_input]. *)
Definition check_relevant_input (user_input : pystr) : M bool :=
  match user_input with
  | [] => ret false
  | _ :: _ =>
      if (length (strip user_input) <? 20)%nat then ret false
      else if any_in relevance_keywords (lower user_input) then ret true
      else if llm then
        try_except
          (resp <- _invoke_with_timeout cfg (relevance_prompt user_input) None ;;
           ret (startswith (chr "y") (lower (strip (default [] resp)))))
          (fun _ => ret false)
      else ret false
  end.

End Heuristics.

(** ** [interview_agent.py]: the scripted interview *)

(** One entry of [feedback_list]. *)
Record feedback_item : Type := FeedbackItem {
  item_question : pyval;
  item_answer : pystr;
  item_feedback : pyval
}.

(** The dict [run_mock_interview] returns. *)
Record interview_report : Type := InterviewReport {
  feedback_list : list feedback_item;
  summary : pystr
}.

(** [sep.join(lines)]. *)
Fixpoint join_with (sep : pystr) (lines : list pystr) : pystr :=
  match lines with
  | [] => []
  | [x] => x
  | x :: rest => x ++ sep ++ join_with sep rest
  end.

Section Agent.

Context {L : PyLib}.
Variable cfg : config.

(** [llm_invoke]: a direct call of the client, with no timeout and no retry;
    what it does is left open. *)
Variable llm_invoke : pystr -> M pystr.

(** The [for answer in user_answers] loop. The question reaches the
    evaluator's prompts through an f-string, that is as [str(question)]. *)
Fixpoint evaluate_answers (question : pyval) (user_answers : list pystr)
  : M (list feedback_item) :=
  match user_answers with
  | [] => ret []
  | answer :: rest =>
      feedback <- evaluate_answer_safe cfg (py_str question) answer ;;
      items <- evaluate_answers question rest ;;
      ret ({| item_question := question; item_answer := answer;
              item_feedback := feedback |} :: items)
  end.

Definition history_entry (item : feedback_item) : pystr :=
  py "Q: " ++ py_str (item_question item) ++ nl
  ++ py "A: " ++ item_answer item ++ nl
  ++ py "Feedback: " ++ py_str (item_feedback item).

Definition summary_prompt (items : list feedback_item) : pystr :=
  py "Based on this interview:" ++ nl
  ++ join_with nl (history_entry <$> items) ++ nl
  ++ py "Provide an overall evaluation, highlighting strengths and areas of improvement.".

(** The summary, with its two fallbacks. *)
Definition final_summary (prompt : pystr) : M pystr :=
  try_except
    (resp <- _invoke_with_timeout cfg prompt None ;;
     ret (strip (default [] resp)))
    (fun _ =>
       try_except (llm_invoke prompt)
         (fun _ => ret (py "Summary unavailable due to LLM error."))).

Definition run_mock_interview (job_description : pystr) (user_answers : list pystr)
  : M interview_report :=
  qobj <- generate_question cfg job_description ;;
  let question := api.question_field qobj in
  items <- evaluate_answers question user_answers ;;
  next_qobj <- generate_question cfg job_description ;;
  summary <- final_summary (summary_prompt items) ;;
  ret {| feedback_list := items; summary := summary |}.

End Agent.


(** The session an operation is about. *)
Definition operation_session (o : operation) : pystr :=
  match o with
  | StartInterview _ uuid4 => uuid4
  | AnswerQuestion sid _ _ | GetStatus sid
  | RunGenerateFirstQuestion sid | RunEvaluateAnswer sid _ _ => sid
  end.

(* ================================================================== *)
(** * Theorems *)
(* ================================================================== *)

(** ** The resilient invoker *)

Section InvokeFacts.

Context {L : PyLib}.
Variable cfg : config.

Lemma range_cons (a b : Z) : a < b -> range a b = a :: range (a + 1) b.
Proof.
  intros Hab. unfold range.
  replace (Z.to_nat (b - a)) with (S (Z.to_nat (b - (a + 1)))) by lia.
  cbn [seq fmap list_fmap]. f_equal; [lia|].
  rewrite <- seq_shift, <- list_fmap_compose.
  apply list_fmap_ext. intros _ i _. cbn. lia.
Qed.

Lemma range_nil (a b : Z) : b <= a -> range a b = [].
Proof. intros Hab. unfold range. now replace (Z.to_nat (b - a)) with 0%nat by lia. Qed.

Lemma length_range (a b : Z) : length (range a b) = Z.to_nat (b - a).
Proof. unfold range. now rewrite length_fmap, length_seq. Qed.


(** Every attempt makes one remote call, and the service is never replaced. *)
Lemma for_attempt_calls (prompt : pystr) (timeout : Z) (todo : list Z) (w : world) :
  (calls w <= calls (for_attempt cfg prompt timeout todo w).2
   <= calls w + length todo)%nat
  /\ remote (for_attempt cfg prompt timeout todo w).2 = remote w.
Proof.
  revert w. induction todo as [|a todo IH]; intros w; cbn.
  - split; [lia | reflexivity].
  - unfold bind at 1. cbn.
    destruct (remote w (calls w) prompt) as [resp| |e]; cbn.
    + split; [lia | reflexivity].
    + destruct (a <? attempts cfg); cbn; [|split; [lia | reflexivity]].
      unfold bind, backoff, time_sleep. cbn.
      destruct (float_pow _ _) as [d|e']; cbn; [|split; [lia | reflexivity]].
      destruct (sleep_error d); cbn; [split; [lia | reflexivity]|].
      match goal with |- context [for_attempt _ _ _ _ ?w'] => specialize (IH w') end.
      cbn in IH. split; [lia | apply IH].
    + destruct (a <? attempts cfg); cbn; [|split; [lia | reflexivity]].
      unfold bind, backoff, time_sleep. cbn.
      destruct (float_pow _ _) as [d|e']; cbn; [|split; [lia | reflexivity]].
      destruct (sleep_error d); cbn; [split; [lia | reflexivity]|].
      match goal with |- context [for_attempt _ _ _ _ ?w'] => specialize (IH w') end.
      cbn in IH. split; [lia | apply IH].
Qed.

(** A failed attempt that is not the last one sleeps, when the sleep goes
    through, and goes on. *)
Lemma for_attempt_retry
    (prompt : pystr) (timeout a : Z) (todo : list Z) (w : world) (d : Q) :
  a < attempts cfg ->
  failed (remote w (calls w) prompt) = true ->
  float_pow (LLM_BACKOFF_FACTOR cfg) (a - 1) = Returns d ->
  sleep_error d = None ->
  for_attempt cfg prompt timeout (a :: todo) w
  = for_attempt cfg prompt timeout todo
      {| remote := remote w; calls := S (calls w); slept := slept w ++ [d] |}.
Proof.
  intros Ha Hf Hp Hs. cbn [for_attempt]. unfold bind at 1. cbn.
  apply Z.ltb_lt in Ha.
  destruct (remote w (calls w) prompt) as [r| |e]; [discriminate| |];
    rewrite Ha; unfold bind, backoff, time_sleep; cbn; rewrite Hp; cbn;
    rewrite Hs; reflexivity.
Qed.

(** A failed attempt that is not the last one, followed by a sleep that
    cannot be done: the exception of the power or of [time.sleep] leaves the
    loop. *)
Lemma for_attempt_refused
    (prompt : pystr) (timeout a : Z) (todo : list Z) (w : world) (e : exn) :
  a < attempts cfg ->
  failed (remote w (calls w) prompt) = true ->
  float_pow (LLM_BACKOFF_FACTOR cfg) (a - 1) = Raises e
  \/ (exists d, float_pow (LLM_BACKOFF_FACTOR cfg) (a - 1) = Returns d
                /\ sleep_error d = Some e) ->
  for_attempt cfg prompt timeout (a :: todo) w
  = (Raises e, {| remote := remote w; calls := S (calls w); slept := slept w |}).
Proof.
  intros Ha Hf Hr. cbn [for_attempt]. unfold bind at 1. cbn.
  apply Z.ltb_lt in Ha.
  destruct (remote w (calls w) prompt) as [r| |e0]; [discriminate| |];
    rewrite Ha; unfold bind, backoff, time_sleep; cbn;
    (destruct Hr as [Hp|(d & Hp & Hs)]; rewrite Hp; cbn; rewrite ?Hs; reflexivity).
Qed.







End InvokeFacts.



(** ** Text helpers *)

Lemma lstrip_nil (s : pystr) :
  lstrip s = [] <-> Forall (fun c => isspace c = true) s.
Proof.
  induction s as [|c s IH]; cbn.
  - split; [constructor | reflexivity].
  - destruct (isspace c) eqn:Hc.
    + rewrite IH. split; [now constructor | now inversion 1].
    + split; [discriminate | inversion 1; congruence].
Qed.

Lemma lstrip_head (s : pystr) (c : N) (t : pystr) :
  lstrip s = c :: t -> isspace c = false.
Proof.
  induction s as [|x s IH]; cbn; [discriminate|].
  destruct (isspace x) eqn:Hx; [assumption|].
  intros [= -> _]. assumption.
Qed.

(** [s.strip()] is empty exactly when [s] holds whitespace only. *)
Lemma strip_nil (s : pystr) :
  strip s = [] <-> Forall (fun c => isspace c = true) s.
Proof.
  unfold strip, rstrip. split.
  - intros H. apply (f_equal (@rev N)) in H. rewrite rev_involutive in H. cbn in H.
    apply lstrip_nil in H. apply Forall_rev in H. rewrite rev_involutive in H.
    destruct (lstrip s) as [|c t] eqn:Hl.
    + now apply lstrip_nil.
    + apply lstrip_head in Hl. inversion H; congruence.
  - intros H. apply lstrip_nil in H. now rewrite H.
Qed.

(** ** The session orchestrator *)

(** Splits a statement about a session into its parts and closes those that
    hold by reflexivity or because the operation is another one. *)
Ltac histories_frame :=
  repeat match goal with |- _ /\ _ => split end;
  intros;
  first [ reflexivity | discriminate | congruence
        | left; reflexivity | idtac ].

Section ApiFacts.

Context {L : PyLib}.
Variable generate_question : pystr -> M pyval.
Variable evaluate_answer_safe : pystr -> pystr -> M pyval.

(** C9. A job description that is blank after trimming (absent, empty or
    whitespace only) is rejected with no entry added to the session mapping
    and no background task scheduled; any other one creates, under the id
    returned, a session whose status is pending, and schedules the
    generation of the first question. *)
Theorem start_interview_blank_rejected
    (jd : option pystr) (uuid4 : pystr) (sessions : gmap pystr session) :
  (blank jd ->
   api.start_interview jd uuid4 sessions
   = (Raises (HTTPException 400
                (py "Please provide a job description or topic for a mock interview.")),
      sessions, []))
  /\ (~ blank jd ->
      exists s,
        api.start_interview jd uuid4 sessions
        = (Returns {| response_session_id := uuid4; response_question := [] |},
           <[uuid4 := s]> sessions,
           [BgGenerateFirstQuestion uuid4])
        /\ status s = Pending
        /\ job_description s = default [] jd
        /\ questions s = [] /\ answers s = []).
Proof.
  unfold blank, api.start_interview. rewrite <- strip_nil.
  destruct (strip (default [] jd)) as [|c t]; split; intros H;
    try reflexivity; try congruence.
  eexists. split; [reflexivity|]. now cbn.
Qed.

(** What [_bg_generate_first_question] does to the session it fetched. *)
Lemma bg_generate_first_question_on_spec (s : session) (w : world) :
  let s' := (api.bg_generate_first_question_on generate_question s w).1 in
  job_description s' = job_description s
  /\ answers s' = answers s
  /\ match generate_question (job_description s) w with
     | (Returns qobj, _) =>
         questions s' = questions s ++ [api.question_field qobj]
         /\ eval_status (evaluation s') = EvalIdle
     | (Raises e, _) =>
         questions s' = questions s
         /\ eval_status (evaluation s') = eval_status (evaluation s)
         /\ status s' = Error /\ error s' = Some (str_of_exn e)
     end.
Proof.
  unfold api.bg_generate_first_question_on. cbn.
  destruct (generate_question (job_description s) w) as [[qobj|e] w']; cbn.
  - destruct (py_len _); cbn; repeat split; reflexivity.
  - repeat split; reflexivity.
Qed.

(** What [_bg_evaluate_answer] does to the session it fetched. *)
Lemma bg_evaluate_answer_on_spec (q a : pystr) (s : session) (w : world) :
  let s' := (api.bg_evaluate_answer_on generate_question evaluate_answer_safe q a s w).1 in
  job_description s' = job_description s
  /\ match evaluate_answer_safe q a w with
     | (Raises e, _) =>
         eval_status (evaluation s') = EvalError
         /\ eval_error (evaluation s') = Some (str_of_exn e)
         /\ answers s' = answers s
         /\ questions s' = questions s
     | (Returns feedback, w1) =>
         answers s' = answers s ++ [{| entry_question := q; entry_answer := a;
                                       entry_feedback := feedback |}]
         /\ eval_status (evaluation s') = EvalReady
         /\ last_feedback (evaluation s') = feedback
         /\ next_question (evaluation s')
            = match generate_question (job_description s) w1 with
              | (Returns next_qobj, _) => api.question_field next_qobj
              | (Raises _, _) => PyNone
              end
         /\ questions s' = questions s ++ [next_question (evaluation s')]
     end.
Proof.
  unfold api.bg_evaluate_answer_on. cbn.
  destruct (evaluate_answer_safe q a w) as [[feedback|e] w1]; cbn;
    [|repeat split; reflexivity].
  destruct (truthy (api.raw_feedback_field feedback)); cbn;
    destruct (generate_question (job_description s) w1) as [[next|e] w2]; cbn;
    repeat split; reflexivity.
Qed.

(** C7. Evaluate-and-advance on a stored session: when the safe evaluator
    raises, the evaluation sub-state becomes [error] and the answers (and
    questions) of the session are exactly what they were; when it returns,
    exactly one question/answer/feedback triple is appended, the sub-state
    becomes [ready] with [last_feedback] the feedback and [next_question] the
    generated question: the value under [question] of the object the generator
    returned (its string form, were it not an object), and [None] when that
    generation raises; this next question is appended to the questions. *)
Theorem bg_evaluate_answer_effect
    (sid q a : pystr) (sessions : gmap pystr session) (s : session) (w : world) :
  sessions !! sid = Some s ->
  exists s',
    (api._bg_evaluate_answer generate_question evaluate_answer_safe sid q a sessions w).1
      !! sid = Some s'
    /\ match evaluate_answer_safe q a w with
       | (Raises e, _) =>
           eval_status (evaluation s') = EvalError
           /\ answers s' = answers s
           /\ questions s' = questions s
       | (Returns feedback, w1) =>
           answers s' = answers s ++ [{| entry_question := q; entry_answer := a;
                                         entry_feedback := feedback |}]
           /\ eval_status (evaluation s') = EvalReady
           /\ last_feedback (evaluation s') = feedback
           /\ next_question (evaluation s')
              = match generate_question (job_description s) w1 with
                | (Returns (PyDict d), _) =>
                    match dict_lookup (py "question") d with
                    | Some question => question
                    | None => PyNone
                    end
                | (Returns other, _) => PyStr (py_str other)
                | (Raises _, _) => PyNone
                end
           /\ questions s' = questions s ++ [next_question (evaluation s')]
       end.
Proof.
  intros Hs. unfold api._bg_evaluate_answer. rewrite Hs.
  pose proof (bg_evaluate_answer_on_spec q a s w) as [_ H]. cbn zeta in H.
  destruct (api.bg_evaluate_answer_on generate_question evaluate_answer_safe q a s w)
    as [s' w'] eqn:Hrun. cbn in *.
  exists s'. rewrite lookup_insert_eq. split; [reflexivity|].
  destruct (evaluate_answer_safe q a w) as [[feedback|e] w1]; [|tauto].
  destruct H as (Ha & Hst & Hfb & Hnq & Hq). repeat split; try assumption.
  all: rewrite Hnq.
  all: destruct (generate_question (job_description s) w1) as [[[| | | | | |d]|e] w2];
    try reflexivity.
  all: unfold api.question_field, dict_get.
  all: now destruct (dict_lookup (py "question") d).
Qed.

(** C10. The response of an accepted [start_interview] carries the empty
    string as its question, whatever the job description; a status read right
    after it shows no question, and once the background unit has run with a
    generator that returned, the status read shows the generated question:
    the value under [question] of the object the generator returned (its
    string form, were it not an object). *)
Theorem start_interview_question_is_empty
    (jd : option pystr) (uuid4 : pystr) (sessions : gmap pystr session) (w : world) :
  ~ blank jd ->
  exists resp sessions' tasks,
    api.start_interview jd uuid4 sessions = (Returns resp, sessions', tasks)
    /\ response_question resp = []
    /\ (exists st, api.get_status uuid4 sessions' = Returns st
                   /\ status_question st = PyNone /\ status_status st = Pending)
    /\ (forall qobj w',
          generate_question (default [] jd) w = (Returns qobj, w') ->
          exists st,
            api.get_status uuid4
              (api._bg_generate_first_question generate_question uuid4 sessions' w).1
            = Returns st
            /\ status_question st
               = match qobj with
                 | PyDict d =>
                     match dict_lookup (py "question") d with
                     | Some question => question
                     | None => PyNone
                     end
                 | other => PyStr (py_str other)
                 end).
Proof.
  intros Hjd.
  destruct (proj2 (start_interview_blank_rejected jd uuid4 sessions) Hjd)
    as (s & Hstart & Hst & Hjob & Hq & Ha).
  eexists _, _, _. split; [exact Hstart|]. split; [reflexivity|]. split.
  - unfold api.get_status. rewrite lookup_insert_eq. eexists. split; [reflexivity|].
    cbn. now rewrite Hq, Hst.
  - intros qobj w' Hgen. unfold api._bg_generate_first_question, api.get_status.
    rewrite lookup_insert_eq.
    pose proof (bg_generate_first_question_on_spec s w) as (_ & _ & H).
    cbn zeta in H. rewrite Hjob, Hgen in H. destruct H as [Hqs _].
    destruct (api.bg_generate_first_question_on generate_question s w) as [s' w''].
    cbn in *. rewrite lookup_insert_eq. eexists. split; [reflexivity|].
    cbn. rewrite Hqs, last_snoc. cbn.
    destruct qobj as [| | | | | |d]; reflexivity.
Qed.

(** C8, as the code has it. Under every operation (the id drawn by
    [start_interview] being a fresh one) a stored session keeps its job
    description and its questions and answers are extended at the end, never
    cut or overwritten. [evaluation.status] is set to [pending] by
    [answer_question]; by evaluate-and-advance to [ready] when the evaluator
    returns and to [error] when it raises; by generate-first-question to
    [idle] when the generator returns, whatever it was, and left as it was
    when the generator raises. So the moves are those of idle, pending, ready
    or error, pending whenever generate-first-question runs on an [idle]
    sub-state and evaluate-and-advance on a [pending] one. *)
Theorem operations_extend_histories
    (o : operation) (sid : pystr) (s : session)
    (sessions : gmap pystr session) (w : world) :
  sessions !! sid = Some s ->
  (forall jd uuid4, o = StartInterview jd uuid4 -> uuid4 <> sid) ->
  exists s',
    (run_operation generate_question evaluate_answer_safe o sessions w).1 !! sid
    = Some s'
    /\ job_description s' = job_description s
    /\ questions s `prefix_of` questions s'
    /\ answers s `prefix_of` answers s'
    /\ (forall q a, o = AnswerQuestion sid q a ->
                    eval_status (evaluation s') = EvalPending)
    /\ (forall q a, o = RunEvaluateAnswer sid q a ->
                    match evaluate_answer_safe q a w with
                    | (Returns _, _) => eval_status (evaluation s') = EvalReady
                    | (Raises _, _) => eval_status (evaluation s') = EvalError
                    end)
    /\ (o = RunGenerateFirstQuestion sid ->
        match generate_question (job_description s) w with
        | (Returns _, _) => eval_status (evaluation s') = EvalIdle
        | (Raises _, _) =>
            eval_status (evaluation s') = eval_status (evaluation s)
        end)
    /\ ((o = RunGenerateFirstQuestion sid -> eval_status (evaluation s) = EvalIdle) ->
        (forall q a, o = RunEvaluateAnswer sid q a ->
                     eval_status (evaluation s) = EvalPending) ->
        eval_status (evaluation s') = eval_status (evaluation s)
        \/ allowed_transition (eval_status (evaluation s))
                              (eval_status (evaluation s')) = true).
Proof.
  intros Hs Hfresh.
  destruct o as [jd uuid4|sid0 q a|sid0|sid0|sid0 q a]; cbn.
  - (* start_interview *)
    specialize (Hfresh jd uuid4 eq_refl).
    exists s. unfold api.start_interview.
    destruct (strip (default [] jd)); cbn; [|rewrite lookup_insert_ne by assumption];
      (split; [exact Hs|]); histories_frame.
  - (* answer_question *)
    unfold api.answer_question. destruct (decide (sid0 = sid)) as [->|Hne].
    + rewrite Hs. cbn. rewrite lookup_insert_eq. eexists. split; [reflexivity|].
      cbn. histories_frame.
      destruct (eval_status (evaluation s)); cbn; auto.
    + exists s. destruct (sessions !! sid0); cbn;
        [rewrite lookup_insert_ne by assumption|];
        (split; [exact Hs|]); histories_frame.
  - (* status *)
    exists s. split; [exact Hs|]. histories_frame.
  - (* generate-first-question *)
    unfold api._bg_generate_first_question. destruct (decide (sid0 = sid)) as [->|Hne].
    + rewrite Hs. pose proof (bg_generate_first_question_on_spec s w) as (Hj & Ha & H).
      cbn zeta in H.
      destruct (api.bg_generate_first_question_on generate_question s w) as [s' w'].
      cbn in *. rewrite lookup_insert_eq. exists s'. split; [reflexivity|].
      split; [exact Hj|]. rewrite Ha.
      destruct (generate_question (job_description s) w) as [[qobj|e] w1].
      * destruct H as [Hq Hi]. rewrite Hq, Hi. histories_frame.
        -- now apply prefix_app_r.
        -- left. symmetry. auto.
      * destruct H as (Hq & Hi & _). rewrite Hq, Hi. histories_frame.
    + exists s. destruct (sessions !! sid0) as [s0|]; cbn.
      * destruct (api.bg_generate_first_question_on generate_question s0 w). cbn.
        rewrite lookup_insert_ne by assumption.
        split; [exact Hs|]. histories_frame.
      * split; [exact Hs|]. histories_frame.
  - (* evaluate-and-advance *)
    unfold api._bg_evaluate_answer. destruct (decide (sid0 = sid)) as [->|Hne].
    + rewrite Hs. pose proof (bg_evaluate_answer_on_spec q a s w) as (Hj & H).
      cbn zeta in H.
      destruct (api.bg_evaluate_answer_on generate_question evaluate_answer_safe q a s w)
        as [s' w'].
      cbn in *. rewrite lookup_insert_eq. exists s'. split; [reflexivity|].
      split; [exact Hj|].
      destruct (evaluate_answer_safe q a w) as [[feedback|e] w1] eqn:Hev.
      * destruct H as (Ha & Hst & _ & _ & Hq). rewrite Ha, Hq, Hst. histories_frame.
        -- now apply prefix_app_r.
        -- now apply prefix_app_r.
        -- match goal with
           | E : RunEvaluateAnswer _ _ _ = RunEvaluateAnswer _ _ _ |- _ =>
               injection E as <- <-
           end. now rewrite Hev.
        -- right. match goal with Hp : forall q a, _ -> _ = EvalPending |- _ =>
                    now rewrite (Hp q a eq_refl) end.
      * destruct H as (Hst & _ & Ha & Hq). rewrite Ha, Hq, Hst. histories_frame.
        -- match goal with
           | E : RunEvaluateAnswer _ _ _ = RunEvaluateAnswer _ _ _ |- _ =>
               injection E as <- <-
           end. now rewrite Hev.
        -- right. match goal with Hp : forall q a, _ -> _ = EvalPending |- _ =>
                    now rewrite (Hp q a eq_refl) end.
    + exists s. destruct (sessions !! sid0) as [s0|]; cbn.
      * destruct (api.bg_evaluate_answer_on generate_question evaluate_answer_safe q a s0 w).
        cbn. rewrite lookup_insert_ne by assumption.
        split; [exact Hs|]. histories_frame.
      * split; [exact Hs|]. histories_frame.
Qed.

End ApiFacts.

(** C9 on a whitespace-only description and on a real one. *)
Lemma start_interview_blank_rejected_witness :
  api.start_interview (Some (py "   ")) (py "id-1") ∅
  = (Raises (HTTPException 400
               (py "Please provide a job description or topic for a mock interview.")),
     ∅, []).
Proof.
  apply (proj1 (start_interview_blank_rejected (Some (py "   ")) (py "id-1") ∅)).
  unfold blank. cbn. repeat constructor.
Defined.

(** ** Answer evaluation *)

Section ToolsFacts.

Context {L : PyLib}.
Variable cfg : config.

Lemma filter_strip (l : list pystr) :
  strip <$> filter (fun part => strip part <> []) l
  = filter (fun seg => seg <> []) (strip <$> l).
Proof.
  induction l as [|x l IH]; [reflexivity|].
  cbn [fmap list_fmap]. rewrite !filter_cons.
  destruct (decide (strip x <> [])); cbn [fmap list_fmap]; now rewrite IH.
Qed.

(** The code's split, written with an accumulator, gives the segments. *)
Lemma is_list_separator_spec (c : N) : is_list_separator c = spec_is_separator c.
Proof.
  unfold is_list_separator, spec_is_separator, spec_separators.
  destruct (N.eqb_spec c 10) as [->|H1]; [reflexivity|].
  destruct (N.eqb_spec c (chr ";")) as [->|H2]; [reflexivity|].
  destruct (N.eqb_spec c (chr ",")) as [->|H3]; [reflexivity|].
  symmetry. apply bool_decide_eq_false. rewrite !elem_of_cons, elem_of_nil.
  intros [?|[?|[?|[]]]]; contradiction.
Qed.

Lemma spec_segments_nonempty (s : pystr) : spec_segments s <> [].
Proof.
  destruct s as [|c s]; cbn; [discriminate|].
  destruct (spec_is_separator c); [discriminate|].
  destruct (spec_segments s); discriminate.
Qed.

Lemma split_on_segments (cur s : pystr) :
  split_on is_list_separator cur s
  = match spec_segments s with
    | seg :: rest => (rev cur ++ seg) :: rest
    | [] => [rev cur]
    end.
Proof.
  revert cur. induction s as [|c s IH]; intros cur; cbn [split_on spec_segments].
  - now rewrite app_nil_r.
  - rewrite is_list_separator_spec. pose proof (spec_segments_nonempty s) as Hne.
    destruct (spec_is_separator c).
    + rewrite app_nil_r. f_equal. rewrite IH.
      destruct (spec_segments s); [contradiction | reflexivity].
    + rewrite IH. destruct (spec_segments s) as [|seg rest]; [contradiction|].
      cbn [rev]. now rewrite <- app_assoc.
Qed.

Lemma split_list_text_segments (s : pystr) : split_list_text s = spec_segments s.
Proof.
  unfold split_list_text. rewrite split_on_segments.
  pose proof (spec_segments_nonempty s).
  destruct (spec_segments s); [contradiction | reflexivity].
Qed.

Lemma lstrip_trim_start (s : pystr) : lstrip s = spec_trim_start s.
Proof. induction s as [|c s IH]; cbn; [reflexivity|]. now rewrite IH. Qed.

Lemma lstrip_snoc (s : pystr) (c : N) :
  lstrip (s ++ [c])
  = match lstrip s with
    | [] => if isspace c then [] else [c]
    | kept => kept ++ [c]
    end.
Proof.
  induction s as [|x s IH]; cbn; [reflexivity|].
  destruct (isspace x); [exact IH | reflexivity].
Qed.

Lemma rstrip_trim_end (s : pystr) : rstrip s = spec_trim_end s.
Proof.
  unfold rstrip. induction s as [|c s IH]; [reflexivity|].
  cbn [rev spec_trim_end]. rewrite lstrip_snoc, <- IH.
  destruct (lstrip (rev s)) as [|x kept]; cbn [rev].
  - now destruct (isspace c).
  - rewrite rev_app_distr. cbn [rev app].
    now destruct (rev kept ++ [x]) eqn:E; [destruct (rev kept); discriminate|].
Qed.

Lemma strip_trim (s : pystr) : strip s = spec_trim s.
Proof. unfold strip, spec_trim. now rewrite rstrip_trim_end, lstrip_trim_start. Qed.

(** [_ensure_list] on [d.get(k)] is the list coercion of the specification. *)
Lemma ensure_list_refines (k : pystr) (d : pydict) :
  _ensure_list (dict_get k d) = coerce_list_spec (dict_lookup k d).
Proof.
  unfold dict_get. destruct (dict_lookup k d) as [[|[]| | |s| |]|]; try reflexivity.
  change (_ensure_list (default PyNone (Some (PyStr s))))
    with ((PyStr ∘ strip) <$> filter (fun part => strip part <> []) (split_list_text s)).
  rewrite list_fmap_compose, filter_strip, split_list_text_segments.
  unfold coerce_list_spec. do 2 f_equal.
  apply list_fmap_ext. intros _ x _. apply strip_trim.
Qed.

Lemma rating_of_refines (d : pydict) :
  rating_of (PyDict d) = coerce_rating_spec (dict_lookup (py "rating") d).
Proof.
  unfold rating_of, coerce_rating_spec, dict_get.
  now destruct (dict_lookup (py "rating") d) as [[|[]| | | | |]|].
Qed.


(** C6. For every extracted object [d], [_validate_feedback] returns a record
    whose [rating] is the integer coercion of [d['rating']], or null when the
    key is absent, the value is null or the coercion fails, and whose
    [strengths], [weaknesses] and [suggestions] are the list coercion of the
    specification applied to the value under the same key of [d]. The
    coercions of the specification are written from its words alone
    ([spec_segments], [spec_trim], [spec_integer], [spec_string_form]), with
    nothing of the code's splitting, trimming and conversions. *)
Theorem validate_feedback_coerces (d : pydict) (w : world) :
  exists out,
    _validate_feedback (PyDict d) w = (Returns out, w)
    /\ dict_lookup (py "rating") out
       = Some (coerce_rating_spec (dict_lookup (py "rating") d))
    /\ dict_lookup (py "strengths") out
       = Some (PyList (coerce_list_spec (dict_lookup (py "strengths") d)))
    /\ dict_lookup (py "weaknesses") out
       = Some (PyList (coerce_list_spec (dict_lookup (py "weaknesses") d)))
    /\ dict_lookup (py "suggestions") out
       = Some (PyList (coerce_list_spec (dict_lookup (py "suggestions") d))).
Proof.
  eexists. split; [reflexivity|].
  rewrite <- rating_of_refines, <- !ensure_list_refines.
  repeat split; reflexivity.
Qed.




(** ** Question generation *)

(** C3, as the code has it. The extraction written inside [generate_question]
    is a shorter routine than [_extract_json]; the two return the same value
    on every text whose whole parse gives a value that is not a string, and
    on every text that does not parse, for which the quote-stripping attempt
    gives nothing and whose brace block, if any, parses as it stands. *)
Theorem question_extract_agrees (text : pystr) :
  same_route text = true ->
  question_extract text = _extract_json text.
Proof.
  unfold same_route, question_extract, _extract_json.
  destruct (json_loads text) as [[| | | |s| |]|]; try reflexivity; try discriminate.
  destruct (unquoted_parse text); [discriminate|].
  destruct (search_braces text) as [block|]; [|reflexivity].
  destruct (json_loads block); [reflexivity | discriminate].
Qed.

Lemma split_on_field (f : N -> bool) (s cur : pystr) :
  cur <> [] \/ Exists (fun c => f c = false) s ->
  Exists (fun fld => fld <> []) (split_on f cur s).
Proof.
  revert cur. induction s as [|c s IH]; intros cur H; cbn.
  - destruct H as [H|H]; [|inversion H].
    constructor. intros Hr. apply H.
    apply (f_equal (@rev N)) in Hr. now rewrite rev_involutive in Hr.
  - destruct (f c) eqn:Hc.
    + destruct H as [H|H].
      * constructor. intros Hr. apply H.
        apply (f_equal (@rev N)) in Hr. now rewrite rev_involutive in Hr.
      * apply Exists_cons_tl. apply IH. right.
        inversion H; subst; [congruence | assumption].
    + apply IH. now left.
Qed.

(** [s.split(sep)] always has a first field. *)
Lemma split_on_cons (f : N -> bool) (s cur : pystr) :
  exists field fields, split_on f cur s = field :: fields.
Proof.
  revert cur. induction s as [|c s IH]; intros cur; cbn.
  - now eexists _, _.
  - destruct (f c); [now eexists _, _ | apply IH].
Qed.

(** A description that is not blank has a first word. *)
Lemma split_whitespace_first (jd : pystr) :
  ~ blank (Some jd) -> exists word rest, split_whitespace jd = word :: rest.
Proof.
  intros Hjd. unfold blank in Hjd. cbn in Hjd.
  apply not_Forall_Exists in Hjd; [|intros c; apply _].
  assert (Exists (fun fld => fld <> []) (split_on isspace [] jd)) as Hex.
  { apply split_on_field. right. eapply Exists_impl; [exact Hjd|].
    intros c Hc. now apply not_true_is_false. }
  apply Exists_exists in Hex as (fld & Hin & Hne).
  unfold split_whitespace.
  destruct (filter (fun f => f <> []) (split_on isspace [] jd)) as [|word rest] eqn:Hf.
  - assert (fld ∈ filter (fun f => f <> []) (split_on isspace [] jd)) as Hm
      by (apply list_elem_of_filter; split; assumption).
    rewrite Hf in Hm. inversion Hm.
  - now exists word, rest.
Qed.

(** [question_of] gives a text whenever it returns. *)
Lemma question_of_returns (parsed : pyval) (w : world) :
  (exists q, question_of parsed w = (Returns q, w))
  \/ (exists e, question_of parsed w = (Raises e, w)).
Proof.
  destruct parsed as [| | | | | |d]; try (right; eexists; reflexivity).
  left. unfold question_of.
  destruct (dict_get (py "question") d); eexists; reflexivity.
Qed.

(** The question of a returned record. For every job description that is
    not blank and every remote behaviour, the record [generate_question]
    returns has a [question] that is a text (never null or another kind of
    value); and when the extraction gives nothing (a value that is false),
    the record is the fallback one, its question the templated sentence on
    the first word of the description, which is not empty. *)
Lemma generate_question_question_is_text (jd : pystr) (w : world) :
  ~ blank (Some jd) ->
  (forall v w', generate_question cfg jd w = (Returns v, w') ->
                exists q parsed,
                  v = PyDict [(py "question", PyStr q); (py "parsed", parsed)])
  /\ (forall resp w',
        _invoke_with_timeout cfg (question_prompt jd) None w = (Returns resp, w') ->
        truthy (question_extract (strip (default [] resp))) = false ->
        exists word parsed,
          head (split_whitespace jd) = Some word
          /\ generate_question cfg jd w
             = (Returns (PyDict [(py "question", PyStr (fallback_question word));
                                 (py "parsed", parsed)]), w')
          /\ fallback_question word <> []).
Proof.
  intros Hjd. split.
  - intros v w'. unfold generate_question. cbn [llm negb]. unfold try_except.
    destruct (bind _ _ w) as [[v0|e] w0] eqn:Hrun; [|discriminate].
    intros [= <- <-]. revert Hrun. unfold bind at 1.
    destruct (_invoke_with_timeout cfg (question_prompt jd) None w) as [[resp|e] w1];
      [|discriminate].
    cbn zeta. unfold bind at 1.
    match goal with
    | |- match ?m w1 with _ => _ end = _ -> _ =>
        destruct (m w1) as [[parsed|e] w2]; [|discriminate]
    end.
    unfold bind.
    destruct (question_of_returns parsed w2) as [(q & ->)|(e & ->)]; [|discriminate].
    intros [= <- _]. now exists q, parsed.
  - intros resp w' Hinv Hfalsy.
    destruct (split_whitespace_first jd Hjd) as (word & rest & Hsplit).
    destruct (split_on_cons (fun c => (c =? 10)%N) jd []) as (line & lines & Hlines).
    exists word. eexists. rewrite Hsplit. split; [reflexivity|]. split.
    + unfold generate_question. cbn [llm negb]. unfold try_except, bind at 1.
      rewrite Hinv. cbn zeta. rewrite Hfalsy. cbn [negb].
      unfold bind at 1. unfold fallback_record, bind at 1.
      rewrite Hlines.
      cbn [first_item]. unfold ret at 1. unfold bind at 1. rewrite Hsplit.
      cbn [first_item]. unfold ret at 1. unfold ret at 1.
      unfold bind. reflexivity.
    + unfold fallback_question. destruct word; discriminate.
Qed.

(** An object that is not empty and has no [question] key passes the guard
    [if not parsed], and its question is the default [''] of [get]. *)
Lemma generate_question_missing_question
    (jd : pystr) (w w' : world) (resp : option pystr) (d : pydict) :
  _invoke_with_timeout cfg (question_prompt jd) None w = (Returns resp, w') ->
  question_extract (strip (default [] resp)) = PyDict d ->
  d <> [] ->
  dict_lookup (py "question") d = None ->
  generate_question cfg jd w
  = (Returns (PyDict [(py "question", PyStr []); (py "parsed", PyDict d)]), w').
Proof.
  intros Hinv Hp Hd Hq. unfold generate_question. cbn [llm negb].
  unfold try_except, bind at 1. rewrite Hinv. cbn zeta. rewrite Hp.
  destruct d as [|kv d]; [contradiction|]. cbn [truthy negb].
  unfold bind, ret, question_of, dict_get, dict_get_or. rewrite Hq. reflexivity.
Qed.

(** A parsed value that is true and not a dict has no [get]: the exception
    is wrapped and raised. *)
Lemma generate_question_raises_on_non_object
    (jd : pystr) (w w' : world) (resp : option pystr) (parsed : pyval) :
  _invoke_with_timeout cfg (question_prompt jd) None w = (Returns resp, w') ->
  question_extract (strip (default [] resp)) = parsed ->
  truthy parsed = true ->
  (forall d, parsed <> PyDict d) ->
  generate_question cfg jd w
  = (Raises (RuntimeError (py "Failed to generate question: "
                           ++ str_of_exn (no_attribute parsed (py "get")))), w').
Proof.
  intros Hinv Hp Ht Hd. unfold generate_question. cbn [llm negb].
  unfold try_except, bind at 1. rewrite Hinv. cbn zeta. rewrite Hp, Ht. cbn [negb].
  unfold bind, ret. destruct parsed; try reflexivity. now destruct (Hd d).
Qed.

End ToolsFacts.

(** ** The embedding on concrete texts, with the reference library *)

#[local] Existing Instance cpython.lib.

(** With the defaults of [tools.py] and a call that always times out: three
    attempts, sleeps of 1 and 2 seconds between them, the timed-out error. *)
Example invoke_always_timing_out :
  _invoke_with_timeout default_config (py "hello") None
    {| remote := fun _ _ => TimedOut; calls := 0; slept := [] |}
  = (Raises (RuntimeError (py "LLM call timed out after 120 seconds (attempts=3)")),
     {| remote := fun _ _ => TimedOut; calls := 3; slept := [1; 2]%Q |}).
Proof. vm_compute. reflexivity. Qed.

(** A model output that is the expected object: the evaluator validates it. *)
Example evaluate_answer_safe_on_object :
  (evaluate_answer_safe default_config (py "q") (py "a")
     (answering (py "{" ++ dq ++ py "rating" ++ dq ++ py ": 7.9, "
                 ++ dq ++ py "strengths" ++ dq ++ py ": "
                 ++ dq ++ py "clear; concise, ,deep" ++ dq ++ py "}"))).1
  = Returns (PyDict [(py "rating", PyInt 7);
                     (py "strengths",
                      PyList [PyStr (py "clear"); PyStr (py "concise"); PyStr (py "deep")]);
                     (py "weaknesses", PyList []);
                     (py "suggestions", PyList []);
                     (py "raw",
                      PyDict [(py "rating", PyFloat (py "7.9"));
                              (py "strengths", PyStr (py "clear; concise, ,deep"))]);
                     (py "raw_feedback", PyNone)]).
Proof. vm_compute. reflexivity. Qed.

(** The coercions of the specification on values: a text with the three
    separators, a number, and ratings that are a text, a boolean, a list. *)
Example coerce_spec_on_values :
  coerce_list_spec (Some (PyStr (py "fast, clear;brief" ++ nl ++ py " kind ,;")))
  = [PyStr (py "fast"); PyStr (py "clear"); PyStr (py "brief"); PyStr (py "kind")]
  /\ coerce_list_spec (Some (PyInt 3)) = [PyStr (py "3")]
  /\ coerce_list_spec (Some (PyBool true)) = [PyStr (py "True")]
  /\ coerce_rating_spec (Some (PyStr (py " 7 "))) = PyInt 7
  /\ coerce_rating_spec (Some (PyStr (py "seven"))) = PyNone
  /\ coerce_rating_spec (Some (PyBool true)) = PyInt 1
  /\ coerce_rating_spec (Some (PyList [PyInt 7])) = PyNone.
Proof. repeat split; vm_compute; reflexivity. Qed.

(** The code on the same text: the same four segments. *)
Example ensure_list_on_text :
  _ensure_list (PyStr (py "fast, clear;brief" ++ nl ++ py " kind ,;"))
  = [PyStr (py "fast"); PyStr (py "clear"); PyStr (py "brief"); PyStr (py "kind")].
Proof. vm_compute. reflexivity. Qed.

(** C3: on the JSON string literal ["abc"] the extraction inside
    [generate_question] gives the string, [_extract_json] parses the string
    again and gives [None]. *)
Lemma question_extract_keeps_string_literal :
  question_extract (L := cpython.lib) (dq ++ py "abc" ++ dq) = PyStr (py "abc")
  /\ _extract_json (L := cpython.lib) (dq ++ py "abc" ++ dq) = PyNone.
Proof. split; vm_compute; reflexivity. Qed.

(** C3 on an object text: the two extractions agree. *)
Lemma question_extract_agrees_witness :
  question_extract (L := cpython.lib) (json_object_text (py "question") (py "Why Python?"))
  = _extract_json (L := cpython.lib) (json_object_text (py "question") (py "Why Python?")).
Proof.
  apply (question_extract_agrees (L := cpython.lib)). vm_compute. reflexivity.
Defined.

(** C4. The question is not always a non-empty string. The model answers
    [{"role": "x"}], an object without a [question] key: the invocation and
    the extraction succeed, and [generate_question] returns the record whose
    [question] is the empty string. The guard [if not parsed] sends to the
    templated fallback question only a value that is false: on the model
    output [{}], the empty object, the question is the fallback one. *)
Theorem generate_question_empty_question :
  (generate_question (L := cpython.lib) default_config
     (py "Senior backend engineer, Python")
     (answering (json_object_text (py "role") (py "x")))).1
  = Returns (PyDict [(py "question", PyStr []);
                     (py "parsed", PyDict [(py "role", PyStr (py "x"))])])
  /\ exists parsed,
       (generate_question (L := cpython.lib) default_config
          (py "Senior backend engineer, Python") (answering (py "{}"))).1
       = Returns (PyDict [(py "question", PyStr (fallback_question (py "Senior")));
                          (py "parsed", parsed)]).
Proof. split; [|eexists]; vm_compute; reflexivity. Qed.

(** A text that is not JSON: the fallback record, its question built on the
    first word of the description. *)
Lemma generate_question_question_is_text_witness :
  exists word parsed,
    head (split_whitespace (py "Senior backend engineer, Python")) = Some word
    /\ generate_question (L := cpython.lib) default_config
         (py "Senior backend engineer, Python") (answering (py "not json"))
       = (Returns (PyDict [(py "question", PyStr (fallback_question word));
                           (py "parsed", parsed)]),
          {| remote := remote (answering (py "not json")); calls := 1; slept := [] |})
    /\ fallback_question word <> [].
Proof.
  apply (proj2 (generate_question_question_is_text (L := cpython.lib) default_config
                  (py "Senior backend engineer, Python") (answering (py "not json"))
                  ltac:(intros H; apply Forall_cons_1 in H as [H _]; discriminate H))
           (Some (py "not json"))).
  - vm_compute. reflexivity.
  - vm_compute. reflexivity.
Defined.

(** C5: the model answers the JSON number [1]; the invocation succeeded, and
    [generate_question] raises. *)
Theorem generate_question_raises_on_number :
  (generate_question (L := cpython.lib) default_config
     (py "Senior backend engineer, Python") (answering (py "1"))).1
  = Raises (RuntimeError
              (py "Failed to generate question: 'int' object has no attribute 'get'")).
Proof. vm_compute. reflexivity. Qed.

(** C8: an answer submitted before the first question is ready leaves the
    evaluation sub-state [pending]; the first-question unit then sets it to
    [idle], a move from [pending] to [idle]. *)
Lemma evaluation_status_pending_to_idle :
  let gen := generate_question (L := cpython.lib) default_config in
  let ev := evaluate_answer_safe (L := cpython.lib) default_config in
  let w := answering (json_object_text (py "question") (py "Why Python?")) in
  let started :=
    (run_operation gen ev
       (StartInterview (Some (py "Senior backend engineer, Python")) (py "s1")) ∅ w).1 in
  let answered :=
    (run_operation gen ev (AnswerQuestion (py "s1") (py "q") (py "a")) started w).1 in
  let generated :=
    (run_operation gen ev (RunGenerateFirstQuestion (py "s1")) answered w).1 in
  (eval_status ∘ evaluation) <$> answered !! py "s1" = Some EvalPending
  /\ (eval_status ∘ evaluation) <$> generated !! py "s1" = Some EvalIdle
  /\ allowed_transition EvalPending EvalIdle = false.
Proof. repeat split; vm_compute; reflexivity. Qed.

(** C7 on a session in the middle of an interview, with the evaluator and
    the generator of [tools.py] and a model that answers a question object:
    one triple is appended after the one there was, the sub-state is [ready],
    and the next question is the question of the object, appended to the two
    questions there were. *)
Lemma bg_evaluate_answer_effect_witness :
  let gen := generate_question (L := cpython.lib) default_config in
  let ev := evaluate_answer_safe (L := cpython.lib) default_config in
  let w := answering (json_object_text (py "question") (py "Why Go?")) in
  exists s' feedback,
    (api._bg_evaluate_answer gen ev (py "s1") (py "Why Rust?") (py "It is safe")
       {[ py "s1" := ongoing_session ]} w).1 !! py "s1" = Some s'
    /\ answers s' = answers ongoing_session
                    ++ [{| entry_question := py "Why Rust?";
                           entry_answer := py "It is safe";
                           entry_feedback := feedback |}]
    /\ eval_status (evaluation s') = EvalReady
    /\ last_feedback (evaluation s') = feedback
    /\ next_question (evaluation s') = PyStr (py "Why Go?")
    /\ questions s' = [PyStr (py "Why Python?"); PyStr (py "Why Rust?");
                       PyStr (py "Why Go?")].
Proof.
  intros gen ev w.
  destruct (bg_evaluate_answer_effect (L := cpython.lib) gen ev
              (py "s1") (py "Why Rust?") (py "It is safe")
              {[ py "s1" := ongoing_session ]} ongoing_session w
              (lookup_singleton_eq _ _)) as (s' & Hs' & H).
  destruct (ev (py "Why Rust?") (py "It is safe") w) as [[feedback|e] w1] eqn:Hev;
    [|vm_compute in Hev; discriminate Hev].
  assert (w1 = {| remote := remote w; calls := 1; slept := [] |}) as ->.
  { vm_compute in Hev. now injection Hev as _ <-. }
  destruct H as (Ha & Hst & Hfb & Hnq & Hq).
  assert (next_question (evaluation s') = PyStr (py "Why Go?")) as Hnext.
  { rewrite Hnq. vm_compute. reflexivity. }
  exists s', feedback. rewrite Hq, Hnext. auto 10.
Defined.

(** C8 on a session in the middle of an interview and the
    evaluate-and-advance unit: the two questions and the answer there were
    are kept at the start of the histories, and the sub-state moves from
    [pending] to [ready]. *)
Lemma operations_extend_histories_witness :
  let gen := generate_question (L := cpython.lib) default_config in
  let ev := evaluate_answer_safe (L := cpython.lib) default_config in
  let w := answering (json_object_text (py "question") (py "Why Go?")) in
  exists s',
    (run_operation gen ev (RunEvaluateAnswer (py "s1") (py "Why Rust?") (py "It is safe"))
       {[ py "s1" := ongoing_session ]} w).1 !! py "s1" = Some s'
    /\ job_description s' = py "Senior backend engineer, Python"
    /\ [PyStr (py "Why Python?"); PyStr (py "Why Rust?")] `prefix_of` questions s'
    /\ answers ongoing_session `prefix_of` answers s'
    /\ eval_status (evaluation ongoing_session) = EvalPending
    /\ eval_status (evaluation s') = EvalReady.
Proof.
  intros gen ev w.
  destruct (operations_extend_histories (L := cpython.lib) gen ev
              (RunEvaluateAnswer (py "s1") (py "Why Rust?") (py "It is safe"))
              (py "s1") ongoing_session
              {[ py "s1" := ongoing_session ]} w
              (lookup_singleton_eq _ _)
              ltac:(discriminate)) as (s' & H1 & H2 & H3 & H4 & _ & H5 & _).
  specialize (H5 (py "Why Rust?") (py "It is safe") eq_refl).
  destruct (ev (py "Why Rust?") (py "It is safe") w) as [[feedback|e] w1] eqn:Hev;
    [|vm_compute in Hev; discriminate Hev].
  exists s'. auto 10.
Defined.

(** C10 on an accepted description and a model that answers a question
    object: the response carries the empty question, and the status read
    after the background unit shows the question of the object. *)
Lemma start_interview_question_is_empty_witness :
  let gen := generate_question (L := cpython.lib) default_config in
  let jd := py "Senior backend engineer, Python" in
  let w := answering (json_object_text (py "question") (py "Why Python?")) in
  exists resp sessions' tasks st,
    api.start_interview (Some jd) (py "s1") ∅ = (Returns resp, sessions', tasks)
    /\ response_question resp = []
    /\ api.get_status (py "s1")
         (api._bg_generate_first_question gen (py "s1") sessions' w).1
       = Returns st
    /\ status_question st = PyStr (py "Why Python?").
Proof.
  intros gen jd w.
  destruct (start_interview_question_is_empty (L := cpython.lib) gen
              (Some jd) (py "s1") ∅ w
              ltac:(intros H; apply Forall_cons_1 in H as [H _]; discriminate H))
    as (resp & sessions' & tasks & H1 & H2 & _ & H4).
  destruct (gen (default [] (Some jd)) w) as [[qobj|e] w'] eqn:Hgen;
    [|vm_compute in Hgen; discriminate Hgen].
  destruct (H4 qobj w' eq_refl) as (st & Hst & Hq).
  assert (qobj = PyDict [(py "question", PyStr (py "Why Python?"));
                         (py "parsed",
                          PyDict [(py "question", PyStr (py "Why Python?"))])])
    as ->.
  { vm_compute in Hgen. now injection Hgen as <- _. }
  exists resp, sessions', tasks, st. auto.
Defined.

(* ================================================================== *)
(** * Further properties of the code *)
(* ================================================================== *)

(** ** Sessions: isolation, the log, unknown ids *)

Section SessionFacts.

Context {L : PyLib}.
Variable generate_question : pystr -> M pyval.
Variable evaluate_answer_safe : pystr -> pystr -> M pyval.

(** An operation leaves the entry of every session it is not about. *)
Lemma run_operation_frame
    (o : operation) (sid : pystr) (sessions : gmap pystr session) (w : world) :
  sid <> operation_session o ->
  (run_operation generate_question evaluate_answer_safe o sessions w).1 !! sid
  = sessions !! sid.
Proof.
  intros Hne. destruct o as [jd uuid4|sid0 q a|sid0|sid0|sid0 q a]; cbn in *.
  - unfold api.start_interview. destruct (strip (default [] jd)); cbn; [reflexivity|].
    now rewrite lookup_insert_ne.
  - unfold api.answer_question. destruct (sessions !! sid0); cbn; [|reflexivity].
    now rewrite lookup_insert_ne.
  - reflexivity.
  - unfold api._bg_generate_first_question.
    destruct (sessions !! sid0) as [s0|]; [|reflexivity].
    destruct (api.bg_generate_first_question_on generate_question s0 w). cbn.
    now rewrite lookup_insert_ne.
  - unfold api._bg_evaluate_answer.
    destruct (sessions !! sid0) as [s0|]; [|reflexivity].
    destruct (api.bg_evaluate_answer_on generate_question evaluate_answer_safe q a s0 w).
    cbn. now rewrite lookup_insert_ne.
Qed.

(** X1. Sessions are isolated and never deleted: an operation leaves the
    entry of every session id other than the one it is about exactly as it
    was (also when there is none), and a session that is stored is still
    stored after any operation. *)
Theorem operations_leave_other_sessions
    (o : operation) (sid : pystr) (sessions : gmap pystr session) (w : world) :
  (sid <> operation_session o ->
   (run_operation generate_question evaluate_answer_safe o sessions w).1 !! sid
   = sessions !! sid)
  /\ (is_Some (sessions !! sid) ->
      is_Some ((run_operation generate_question evaluate_answer_safe o sessions w).1
                 !! sid)).
Proof.
  split; [apply run_operation_frame|]. intros Hs.
  destruct (decide (sid = operation_session o)) as [->|Hne];
    [|now rewrite run_operation_frame].
  destruct o as [jd uuid4|sid0 q a|sid0|sid0|sid0 q a]; cbn in *.
  - unfold api.start_interview. destruct (strip (default [] jd)); cbn; [assumption|].
    rewrite lookup_insert_eq. eauto.
  - unfold api.answer_question.
    destruct (sessions !! sid0) as [s0|] eqn:E; cbn; [|now destruct Hs].
    rewrite lookup_insert_eq. eauto.
  - assumption.
  - unfold api._bg_generate_first_question.
    destruct (sessions !! sid0) as [s0|] eqn:E; [|now destruct Hs].
    destruct (api.bg_generate_first_question_on generate_question s0 w). cbn.
    rewrite lookup_insert_eq. eauto.
  - unfold api._bg_evaluate_answer.
    destruct (sessions !! sid0) as [s0|] eqn:E; [|now destruct Hs].
    destruct (api.bg_evaluate_answer_on generate_question evaluate_answer_safe q a s0 w).
    cbn. rewrite lookup_insert_eq. eauto.
Qed.

(** The log of the session [_bg_generate_first_question] fetched only grows. *)
Lemma bg_generate_first_question_on_log (s : session) (w : world) :
  log s `prefix_of` log (api.bg_generate_first_question_on generate_question s w).1.
Proof.
  unfold api.bg_generate_first_question_on.
  destruct (generate_question _ w) as [[qobj|e] w']; cbn.
  - destruct (py_len _); cbn; rewrite <- app_assoc; apply prefix_app_r; reflexivity.
  - rewrite <- app_assoc. now apply prefix_app_r.
Qed.

(** The log of the session [_bg_evaluate_answer] fetched only grows. *)
Lemma bg_evaluate_answer_on_log (q a : pystr) (s : session) (w : world) :
  log s `prefix_of`
    log (api.bg_evaluate_answer_on generate_question evaluate_answer_safe q a s w).1.
Proof.
  unfold api.bg_evaluate_answer_on.
  destruct (evaluate_answer_safe q a w) as [[feedback|e] w1]; cbn.
  - destruct (truthy (api.raw_feedback_field feedback)); cbn;
      destruct (generate_question _ w1) as [[next|e] w2]; cbn;
      rewrite <- ?app_assoc; apply prefix_app_r; reflexivity.
  - rewrite <- app_assoc. now apply prefix_app_r.
Qed.

(** X2. The diagnostic log of a stored session is append-only: after any
    operation (the id drawn by [start_interview] being a fresh one) the
    session is still stored and its old log is a prefix of its new log; the
    two request handlers [answer_question] and [status] add nothing to it. *)
Theorem operations_extend_log
    (o : operation) (sid : pystr) (s : session)
    (sessions : gmap pystr session) (w : world) :
  sessions !! sid = Some s ->
  (forall jd uuid4, o = StartInterview jd uuid4 -> uuid4 <> sid) ->
  exists s',
    (run_operation generate_question evaluate_answer_safe o sessions w).1 !! sid
    = Some s'
    /\ log s `prefix_of` log s'
    /\ ((forall q a, o <> RunEvaluateAnswer sid q a) ->
        o <> RunGenerateFirstQuestion sid -> log s' = log s).
Proof.
  intros Hs Hfresh.
  destruct (decide (sid = operation_session o)) as [->|Hne].
  - destruct o as [jd uuid4|sid0 q a|sid0|sid0|sid0 q a]; cbn in *.
    + now destruct (Hfresh jd uuid4 eq_refl).
    + unfold api.answer_question. rewrite Hs. cbn. rewrite lookup_insert_eq.
      eexists. split; [reflexivity|]. now split.
    + exists s. now repeat split.
    + unfold api._bg_generate_first_question. rewrite Hs.
      pose proof (bg_generate_first_question_on_log s w) as Hlog.
      destruct (api.bg_generate_first_question_on generate_question s w) as [s' w'].
      cbn in *. rewrite lookup_insert_eq. exists s'. repeat split; [assumption|].
      intros _ Hno. now destruct Hno.
    + unfold api._bg_evaluate_answer. rewrite Hs.
      pose proof (bg_evaluate_answer_on_log q a s w) as Hlog.
      destruct (api.bg_evaluate_answer_on generate_question evaluate_answer_safe q a s w)
        as [s' w'].
      cbn in *. rewrite lookup_insert_eq. exists s'. repeat split; [assumption|].
      intros Hno _. now destruct (Hno q a).
  - exists s. rewrite run_operation_frame by assumption.
    now repeat split.
Qed.

(** X3. An unknown session id changes nothing: [answer_question] and
    [status] raise the 404 error, [answer_question] leaving the mapping as it
    is and scheduling no task; the two background units return at once, with
    the mapping and the world (no remote call, no sleep) untouched. *)
Theorem unknown_session_changes_nothing
    (sid q a : pystr) (sessions : gmap pystr session) (w : world) :
  sessions !! sid = None ->
  api.answer_question sid q a sessions
  = (Raises (HTTPException 404 (py "Session not found")), sessions, [])
  /\ api.get_status sid sessions
     = Raises (HTTPException 404 (py "Session not found"))
  /\ api._bg_generate_first_question generate_question sid sessions w
     = (sessions, w)
  /\ api._bg_evaluate_answer generate_question evaluate_answer_safe sid q a sessions w
     = (sessions, w).
Proof.
  intros Hs.
  unfold api.answer_question, api.get_status, api._bg_generate_first_question,
    api._bg_evaluate_answer.
  now rewrite Hs.
Qed.


End SessionFacts.

(** ** The invoker: exhaustion, sleeps, misconfiguration *)

Section InvokeMore.

Context {L : PyLib}.
Variable cfg : config.


(** Sleeps and calls of the loop, whatever the remote and the library do. *)
Lemma for_attempt_sleeps (prompt : pystr) (timeout : Z) (n : nat) :
  forall (a : Z) (w : world),
    a + Z.of_nat n = attempts cfg ->
    let w' := (for_attempt cfg prompt timeout (range a (attempts cfg + 1)) w).2 in
    (calls w < calls w')%nat
    /\ (length (slept w') + 1 = length (slept w) + (calls w' - calls w))%nat
    /\ slept w `prefix_of` slept w'.
Proof.
  induction n as [|n IH]; intros a w Ha; cbn zeta.
  - rewrite range_cons by lia. rewrite range_nil by lia.
    cbn [for_attempt]. unfold bind at 1. cbn.
    assert ((a <? attempts cfg) = false) as Hlt by (apply Z.ltb_ge; lia).
    destruct (remote w (calls w) prompt) as [r| |e]; rewrite ?Hlt; cbn;
      (split; [lia|split; [lia|reflexivity]]).
  - rewrite range_cons by lia.
    destruct (failed (remote w (calls w) prompt)) eqn:Hf.
    + destruct (float_pow (LLM_BACKOFF_FACTOR cfg) (a - 1)) as [d|e] eqn:Hp.
      * destruct (sleep_error d) as [e|] eqn:Hs.
        -- rewrite (for_attempt_refused cfg _ _ _ _ _ e); [|lia|assumption|eauto].
           cbn. split; [lia|split; [lia|reflexivity]].
        -- rewrite (for_attempt_retry cfg _ _ _ _ _ d); [|lia|assumption..].
           specialize (IH (a + 1)
                         {| remote := remote w; calls := S (calls w);
                            slept := slept w ++ [d] |} ltac:(lia)).
           cbn zeta in IH. cbn [remote calls slept] in IH.
           destruct IH as (Hc & Hl & Hpre). rewrite length_app in Hl. cbn in Hl.
           split; [lia|]. split; [lia|].
           etransitivity; [|exact Hpre]. now apply prefix_app_r.
      * rewrite (for_attempt_refused cfg _ _ _ _ _ e); [|lia|assumption|now left].
        cbn. split; [lia|split; [lia|reflexivity]].
    + cbn [for_attempt]. unfold bind at 1. cbn.
      destruct (remote w (calls w) prompt) as [r| |e]; try discriminate. cbn.
      split; [lia|split; [lia|reflexivity]].
Qed.

(** X6. Sleeps come between attempts only. With a backoff factor that is not
    negative, every invocation, whatever the remote does, makes at least one
    call, sleeps exactly one time less than it calls (never after the attempt
    that ends it), and only adds to the durations slept before. *)
Theorem invoke_sleeps_between_attempts
    (prompt : pystr) (timeout : option Z) (w : world) :
  (0 <= LLM_BACKOFF_FACTOR cfg)%Q ->
  let w' := (_invoke_with_timeout cfg prompt timeout w).2 in
  (calls w < calls w')%nat
  /\ (length (slept w') + 1 = length (slept w) + (calls w' - calls w))%nat
  /\ slept w `prefix_of` slept w'.
Proof.
  intros _. unfold _invoke_with_timeout.
  apply (for_attempt_sleeps prompt _ (Z.to_nat (attempts cfg - 1)) 1 w).
  unfold attempts. lia.
Qed.

(** X7. A retry count that is zero or negative means one attempt: the
    invoker makes exactly one call and never sleeps, whatever the backoff
    factor; it returns the content of that call, or raises at once the
    timed-out error or the invocation-failed error after 1 attempt. *)
Theorem invoke_single_attempt (prompt : pystr) (timeout : option Z) (w : world) :
  LLM_INVOKE_RETRIES cfg <= 0 ->
  _invoke_with_timeout cfg prompt timeout w
  = (match remote w (calls w) prompt with
     | Returned resp => Returns resp
     | TimedOut => Raises (timed_out_error cfg (effective_timeout cfg timeout))
     | Raised e => Raises (invocation_failed_error 1 e)
     end,
     {| remote := remote w; calls := S (calls w); slept := slept w |}).
Proof.
  intros Hr. unfold _invoke_with_timeout.
  assert (attempts cfg = 1) as Hatt by (unfold attempts; lia).
  rewrite range_cons by lia. rewrite range_nil by lia.
  cbn [for_attempt]. unfold bind at 1. cbn [submit_and_wait].
  assert ((1 <? attempts cfg) = false) as Hlt by (apply Z.ltb_ge; lia).
  destruct (remote w (calls w) prompt); rewrite ?Hlt; reflexivity.
Qed.


End InvokeMore.

(** ** The generator and the evaluator: what they cost and what they return *)

Section ToolsMore.

Context {L : PyLib}.
Variable cfg : config.

(** One invocation makes at most [attempts] calls. *)
Lemma invoke_calls_bound (prompt : pystr) (timeout : option Z) (w : world) :
  (calls w <= calls (_invoke_with_timeout cfg prompt timeout w).2
   <= calls w + Z.to_nat (attempts cfg))%nat.
Proof.
  unfold _invoke_with_timeout.
  pose proof (for_attempt_calls cfg prompt (effective_timeout cfg timeout)
                (range 1 (attempts cfg + 1)) w) as [Hc _].
  rewrite length_range in Hc.
  replace (attempts cfg + 1 - 1) with (attempts cfg) in Hc by lia. exact Hc.
Qed.

Lemma fallback_record_world (jd : pystr) (w : world) :
  (fallback_record jd w).2 = w.
Proof.
  unfold fallback_record, bind.
  destruct (split_on _ [] jd); cbn; [reflexivity|].
  now destruct (split_whitespace jd).
Qed.

Lemma question_of_world (parsed : pyval) (w : world) :
  (question_of parsed w).2 = w.
Proof.
  destruct parsed as [| | | | | |d]; try reflexivity.
  unfold question_of. now destruct (dict_get (py "question") d).
Qed.

Lemma validate_feedback_world (parsed : pyval) (w : world) :
  (_validate_feedback parsed w).2 = w.
Proof. now destruct parsed. Qed.

(** [generate_question] touches the world through its one invocation only. *)
Lemma generate_question_world (jd : pystr) (w : world) :
  (generate_question cfg jd w).2
  = (_invoke_with_timeout cfg (question_prompt jd) None w).2.
Proof.
  unfold generate_question. cbn [llm negb]. unfold try_except, bind at 1.
  destruct (_invoke_with_timeout cfg (question_prompt jd) None w) as [[resp|e] w1];
    [|reflexivity].
  cbn zeta. unfold bind at 1.
  set (parsed0 := question_extract (strip (default [] resp))).
  assert (((if negb (truthy parsed0) then fallback_record jd else ret parsed0) w1).2 = w1)
    as Hw by (destruct (negb (truthy parsed0)); [apply fallback_record_world | reflexivity]).
  destruct ((if negb (truthy parsed0) then fallback_record jd else ret parsed0) w1)
    as [[parsed|e] w2]; cbn in Hw; subst w2; [|reflexivity].
  unfold bind. pose proof (question_of_world parsed w1) as Hq.
  destruct (question_of parsed w1) as [[q|e] w3]; cbn in Hq; now subst w3.
Qed.

(** The world after [evaluate_answer]: that of the first invocation, or that
    of the retry invocation when the first text gave nothing. *)
Lemma evaluate_answer_world (q a : pystr) (w : world) :
  (evaluate_answer cfg q a w).2
  = match _invoke_with_timeout cfg (eval_prompt q a) None w with
    | (Returns resp, w1) =>
        match _extract_json (strip (default [] resp)) with
        | PyNone => (_invoke_with_timeout cfg (retry_prompt q a) None w1).2
        | _ => w1
        end
    | (Raises _, w1) => w1
    end.
Proof.
  unfold evaluate_answer. cbn [llm negb]. unfold try_except, bind at 1.
  destruct (_invoke_with_timeout cfg (eval_prompt q a) None w) as [[resp|e] w1];
    [|reflexivity].
  cbn zeta. set (text := strip (default [] resp)).
  assert (forall parsed w2,
             (match (match parsed with
                     | PyNone => ret (PyDict [(py "raw_feedback", PyStr text)])
                     | _ => validated <- _validate_feedback parsed ;;
                            ret (PyDict (dict_set (py "raw") parsed validated))
                     end w2) with
              | (Returns v, w') => (Returns v, w')
              | (Raises e, w') =>
                  raise (RuntimeError (py "Failed to evaluate answer: " ++ str_of_exn e)) w'
              end).2 = w2) as Hfin.
  { intros parsed w2. pose proof (validate_feedback_world parsed w2) as Hv.
    destruct parsed; try reflexivity; unfold bind;
      destruct (_validate_feedback _ w2) as [[out|e] w3]; cbn in Hv; now subst w3. }
  unfold bind at 1.
  destruct (_extract_json text) eqn:Hext;
    try (match goal with |- context [ret ?p w1] => exact (Hfin p w1) end).
  unfold bind at 1.
  destruct (_invoke_with_timeout cfg (retry_prompt q a) None w1) as [[resp2|e] w2];
    [|reflexivity].
  cbn zeta. destruct (search_json_tags _) as [inner|].
  - exact (Hfin (_extract_json inner) w2).
  - exact (Hfin PyNone w2).
Qed.

(** X9. The cost in remote calls is bounded: [generate_question] makes at
    most [attempts = 1 + max(0, retries)] calls, and [evaluate_answer_safe]
    at most twice as many (the evaluation prompt, then at most one retry
    prompt), whatever the remote answers. *)
Theorem tools_remote_budget (jd q a : pystr) (w : world) :
  (calls (generate_question cfg jd w).2 <= calls w + Z.to_nat (attempts cfg))%nat
  /\ (calls (evaluate_answer_safe cfg q a w).2
      <= calls w + 2 * Z.to_nat (attempts cfg))%nat.
Proof.
  split.
  - rewrite generate_question_world. apply invoke_calls_bound.
  - assert ((evaluate_answer_safe cfg q a w).2 = (evaluate_answer cfg q a w).2) as ->.
    { unfold evaluate_answer_safe, bind, try_except.
      destruct (evaluate_answer cfg q a w) as [[fb|e] w1]; [|reflexivity].
      destruct fb as [| | | | | |[|kv d]]; reflexivity. }
    rewrite evaluate_answer_world.
    pose proof (invoke_calls_bound (eval_prompt q a) None w) as H1.
    destruct (_invoke_with_timeout cfg (eval_prompt q a) None w) as [[resp|e] w1];
      cbn in H1; [|lia].
    pose proof (invoke_calls_bound (retry_prompt q a) None w1) as H2.
    destruct (_extract_json (strip (default [] resp))); lia.
Qed.




(** X13. A [question] that is a string is returned as it is, untrimmed and
    also when empty, with the whole parsed object beside it: the coercion and
    the trimming apply to the values that are not strings only. *)
Theorem generate_question_keeps_string_question
    (jd : pystr) (w w1 : world) (resp : option pystr) (d : pydict) (q : pystr) :
  _invoke_with_timeout cfg (question_prompt jd) None w = (Returns resp, w1) ->
  question_extract (strip (default [] resp)) = PyDict d ->
  dict_lookup (py "question") d = Some (PyStr q) ->
  generate_question cfg jd w
  = (Returns (PyDict [(py "question", PyStr q); (py "parsed", PyDict d)]), w1).
Proof.
  intros H1 Hext Hq. unfold generate_question. cbn [llm negb].
  unfold try_except, bind at 1. rewrite H1. cbn zeta. rewrite Hext.
  assert (truthy (PyDict d) = true) as -> by (destruct d; [discriminate Hq | reflexivity]).
  cbn [negb]. unfold bind, ret, question_of, dict_get. now rewrite Hq.
Qed.



(** The first field of a split: a prefix of the text, free of separators. *)
Lemma split_on_first_field (f : N -> bool) (s cur field : pystr) (fields : list pystr) :
  split_on f cur s = field :: fields ->
  exists t rest,
    field = rev cur ++ t
    /\ s = t ++ rest
    /\ Forall (fun c => f c = false) t
    /\ (rest = [] \/ exists c rest', rest = c :: rest' /\ f c = true).
Proof.
  revert cur. induction s as [|c s IH]; intros cur; cbn.
  - intros [= <- _]. exists [], []. rewrite app_nil_r.
    repeat split; [constructor | now left].
  - destruct (f c) eqn:Hc.
    + intros [= <- _]. exists [], (c :: s). rewrite app_nil_r.
      repeat split; [constructor | right; eauto].
    + intros H. destruct (IH _ H) as (t & rest & -> & -> & Hf & Hrest).
      exists (c :: t), rest. cbn. rewrite <- app_assoc. cbn.
      repeat split; [now constructor | exact Hrest].
Qed.

(** The first word of a text: the first run of characters that are not
    whitespace, as long as it can be. *)
Lemma split_whitespace_head (s word : pystr) (words : list pystr) :
  split_whitespace s = word :: words ->
  exists blanks rest,
    s = blanks ++ word ++ rest
    /\ Forall (fun c => isspace c = true) blanks
    /\ word <> []
    /\ Forall (fun c => isspace c = false) word
    /\ (rest = [] \/ exists c rest', rest = c :: rest' /\ isspace c = true).
Proof.
  unfold split_whitespace. induction s as [|c s IH]; cbn [split_on].
  - rewrite filter_cons. cbn. destruct (decide (@nil N <> [])); [congruence|].
    discriminate.
  - destruct (isspace c) eqn:Hc.
    + cbn [rev]. rewrite filter_cons.
      destruct (decide (@nil N <> [])); [congruence|].
      intros H. destruct (IH H) as (blanks & rest & -> & Hb & Hw & Hf & Hrest).
      exists (c :: blanks), rest. repeat split; try assumption.
      now constructor.
    + destruct (split_on_cons isspace s [c]) as (field & fields & Hsplit).
      rewrite Hsplit.
      destruct (split_on_first_field _ _ _ _ _ Hsplit)
        as (t & rest & -> & -> & Hf & Hrest).
      cbn [rev app]. rewrite filter_cons.
      destruct (decide (c :: t <> [])) as [_|Hn]; [|now destruct Hn].
      intros [= <- _]. exists [], rest. cbn [app].
      repeat split; [constructor | discriminate | now constructor | exact Hrest].
Qed.

(** X15. The fallback record, whenever it is built: its [role] is the first
    line of the job description (what precedes the first line feed) cut to
    its first 60 characters, its question is the templated sentence on the
    first word of the description (its first run of characters that are not
    whitespace), [skills] is empty and the other descriptive fields are
    ["unspecified"]; building it touches nothing. *)
Theorem fallback_record_fields (jd : pystr) (w w' : world) (v : pyval) :
  fallback_record jd w = (Returns v, w') ->
  exists line after_line blanks word after_word,
    jd = line ++ after_line
    /\ Forall (fun c => c <> 10%N) line
    /\ (after_line = [] \/ exists t, after_line = 10%N :: t)
    /\ jd = blanks ++ word ++ after_word
    /\ Forall (fun c => isspace c = true) blanks
    /\ word <> []
    /\ Forall (fun c => isspace c = false) word
    /\ (after_word = [] \/ exists c t, after_word = c :: t /\ isspace c = true)
    /\ v = PyDict [(py "role", PyStr (take 60 line));
                   (py "seniority", PyStr (py "unspecified"));
                   (py "skills", PyStr []);
                   (py "job_type", PyStr (py "unspecified"));
                   (py "location", PyStr (py "unspecified"));
                   (py "question",
                    PyStr (py "Based on the job description, can you tell me about your experience related to "
                           ++ word ++ py "?"))]
    /\ w' = w.
Proof.
  unfold fallback_record, bind.
  destruct (split_on (fun c => (c =? 10)%N) [] jd) as [|field fields] eqn:Hsplit;
    cbn [first_item]; [discriminate|].
  unfold ret at 1.
  destruct (split_whitespace jd) as [|word words] eqn:Hwords;
    cbn [first_item]; [discriminate|].
  apply split_on_first_field in Hsplit as (line & after_line & -> & Hjd & Hf & Hrest).
  apply split_whitespace_head in Hwords
    as (blanks & after_word & Hjd' & Hb & Hw & Hfw & Hrest').
  cbn [rev app]. unfold ret. intros [= <- <-].
  exists line, after_line, blanks, word, after_word.
  split; [exact Hjd|]. split.
  { eapply Forall_impl; [exact Hf|]. intros c Hc ->. discriminate Hc. }
  split.
  { destruct Hrest as [->|(c & t & -> & Hc)]; [now left|].
    right. exists t. apply N.eqb_eq in Hc. now subst. }
  repeat split; assumption.
Qed.

End ToolsMore.

(** ** Trimming and the list coercion *)

Lemma lstrip_fixed (s : pystr) :
  match s with [] => True | c :: _ => isspace c = false end -> lstrip s = s.
Proof. destruct s as [|c t]; cbn; [reflexivity|]. now intros ->. Qed.

Lemma lstrip_idempotent (s : pystr) : lstrip (lstrip s) = lstrip s.
Proof.
  apply lstrip_fixed. destruct (lstrip s) as [|c t] eqn:E; [exact I|].
  now apply lstrip_head in E.
Qed.

(** [lstrip] drops a prefix of whitespace. *)
Lemma lstrip_split (s : pystr) :
  exists pre, s = pre ++ lstrip s /\ Forall (fun c => isspace c = true) pre.
Proof.
  induction s as [|x s (pre & Hs & Hpre)]; cbn.
  - exists []. split; [reflexivity | constructor].
  - destruct (isspace x) eqn:Hx.
    + exists (x :: pre). split; [cbn; congruence | now constructor].
    + exists []. split; [reflexivity | constructor].
Qed.

(** [s.strip()] keeps a middle part of [s]. *)
Lemma strip_infix (s : pystr) :
  exists pre post, s = pre ++ strip s ++ post
                   /\ Forall (fun c => isspace c = true) pre
                   /\ Forall (fun c => isspace c = true) post.
Proof.
  unfold strip, rstrip.
  destruct (lstrip_split s) as (pre & Hs & Hpre).
  destruct (lstrip_split (rev (lstrip s))) as (post & Hr & Hpost).
  exists pre, (rev post). split; [|split; [assumption | now apply Forall_rev]].
  rewrite Hs at 1. f_equal.
  apply (f_equal (@rev N)) in Hr. rewrite rev_involutive, rev_app_distr in Hr.
  exact Hr.
Qed.

(** Trimming is idempotent, and a trimmed text neither starts nor ends with a
    whitespace character. *)
Lemma strip_idempotent (s : pystr) :
  strip (strip s) = strip s
  /\ match strip s with [] => True | c :: _ => isspace c = false end
  /\ match rev (strip s) with [] => True | c :: _ => isspace c = false end.
Proof.
  assert (match rev (strip s) with [] => True | c :: _ => isspace c = false end) as Hlast.
  { unfold strip, rstrip. rewrite rev_involutive.
    destruct (lstrip (rev (lstrip s))) as [|c t] eqn:E; [exact I|].
    now apply lstrip_head in E. }
  assert (match strip s with [] => True | c :: _ => isspace c = false end) as Hfirst.
  { destruct (strip s) as [|c r] eqn:E; [exact I|].
    unfold strip, rstrip in E.
    destruct (lstrip_split (rev (lstrip s))) as (post & Hr & _).
    apply (f_equal (@rev N)) in Hr. rewrite rev_involutive, rev_app_distr, E in Hr.
    cbn in Hr. now apply lstrip_head in Hr. }
  split; [|split; assumption].
  unfold strip at 1. rewrite (lstrip_fixed (strip s)) by exact Hfirst.
  unfold rstrip. rewrite (lstrip_fixed (rev (strip s))) by exact Hlast.
  apply rev_involutive.
Qed.

Lemma split_on_fields (f : N -> bool) (s cur : pystr) :
  Forall (fun c => f c = false) cur ->
  Forall (Forall (fun c => f c = false)) (split_on f cur s).
Proof.
  revert cur. induction s as [|c s IH]; intros cur Hcur; cbn.
  - constructor; [now apply Forall_rev | constructor].
  - destruct (f c) eqn:Hc.
    + constructor; [now apply Forall_rev | apply IH; constructor].
    + apply IH. now constructor.
Qed.

Section ListCoercion.

Context {L : PyLib}.

(** X16. The list coercion of a text gives clean segments: every element of
    [_ensure_list] of a string is a string that is not empty, is trimmed
    (stripping it again changes nothing) and holds no line feed, semicolon or
    comma; a text of separators and whitespace only gives the empty list. *)
Theorem ensure_list_text_segments (s : pystr) :
  Forall (fun v => exists seg,
              v = PyStr seg /\ seg <> [] /\ strip seg = seg
              /\ Forall (fun c => is_list_separator c = false) seg)
    (_ensure_list (PyStr s))
  /\ (Forall (fun c => is_list_separator c = true \/ isspace c = true) s ->
      _ensure_list (PyStr s) = []).
Proof.
  cbn [_ensure_list]. split.
  - apply Forall_fmap, Forall_forall. intros part Hin.
    apply list_elem_of_filter in Hin as [Hne Hin]. cbn.
    exists (strip part). split; [reflexivity|]. split; [exact Hne|].
    split; [apply strip_idempotent|].
    pose proof (split_on_fields is_list_separator s [] (Forall_nil_2 _)) as Hf.
    rewrite Forall_forall in Hf. specialize (Hf part Hin).
    destruct (strip_infix part) as (pre & post & Hp & _ & _).
    rewrite Hp in Hf. apply Forall_app in Hf as [_ Hf].
    now apply Forall_app in Hf as [Hf _].
  - intros Hs.
    assert (forall cur, Forall (fun c => isspace c = true) cur ->
                        Forall (fun part => strip part = [])
                          (split_on is_list_separator cur s)) as Hall.
    { induction Hs as [|c s Hc _ IH]; intros cur Hcur; cbn.
      - constructor; [|constructor]. apply strip_nil. now apply Forall_rev.
      - destruct (is_list_separator c) eqn:Hsep.
        + constructor; [apply strip_nil; now apply Forall_rev | apply IH; constructor].
        + apply IH. constructor; [|assumption]. now destruct Hc. }
    specialize (Hall [] (Forall_nil_2 _)). unfold split_list_text.
    induction Hall as [|part parts Hp _ IH]; [reflexivity|].
    rewrite filter_cons. destruct (decide (strip part <> [])); [congruence | exact IH].
Qed.

End ListCoercion.

(** ** Tools and sessions together *)

Section ToolsAndSessions.

Context {L : PyLib}.
Variable cfg : config.




End ToolsAndSessions.

(** ** The heuristic evaluator and the relevance check *)

Section HeuristicsFacts.

Context {L : PyLib}.
Variable cfg : config.
Variable lower : pystr -> pystr.

Lemma feedback_record_shape (rating : pyval) (st wk sg : list pystr) (rf : pyval) :
  is_int_or_none rating = true ->
  is_str_or_none rf = true ->
  has_feedback_shape (feedback_record rating st wk sg rf) = true.
Proof.
  intros Hr Hrf.
  destruct rating; try discriminate; destruct rf; try discriminate; reflexivity.
Qed.

(** [int(h * 1.5 + score)] is at least [score], for the three scores. *)
Lemma quick_rating_bounds (hits : nat) (score : Z) :
  3 <= score ->
  3 <= quick_rating hits score <= 10.
Proof.
  intros Hs. unfold quick_rating, int_of_Q.
  destruct (score =? 0) eqn:E; [lia|].
  cbn [Qplus Qmult inject_Z Qnum Qden].
  assert (score <= (Z.of_nat hits * 3 * 1 + score * Z.pos (1 * 2))
                   ÷ Z.pos (1 * 2 * 1)) as Hq.
  { change (Z.pos (1 * 2 * 1)) with 2. change (Z.pos (1 * 2)) with 2.
    rewrite Z.quot_div_nonneg by lia.
    apply Z.div_le_lower_bound; lia. }
  lia.
Qed.

(** X19. The heuristic evaluator always answers with a feedback record, for
    any answer value: a dict with the five keys, [rating] an integer or
    [None], the three list fields lists, [raw_feedback] a text or [None]; a
    value that has no [strip] gives the failure record, not an exception. *)
Theorem evaluate_answer_quick_shape (question : pystr) (answer : pyval) :
  has_feedback_shape (evaluate_answer_quick lower question answer) = true.
Proof.
  unfold evaluate_answer_quick.
  destruct (if truthy answer then answer else PyStr []) as [| | | |s| |];
    try (now apply feedback_record_shape).
  destruct (strip s) as [|c t]; [now apply feedback_record_shape|].
  destruct (length_branch _) as [[detail short] score].
  now apply feedback_record_shape.
Qed.

(** X20. The heuristic rating of a text answer. The record never is the
    failure record: its rating is an integer from 1 to 10 and its
    [raw_feedback] is [None]. An answer that is blank after trimming is rated
    1, with the one weakness ["No answer provided"]; any other answer is
    rated at least 3 (the lower clamp never applies), with at most seven
    strengths, one weakness and two suggestions. *)
Theorem evaluate_answer_quick_rating (question s : pystr) :
  exists n st wk sg,
    evaluate_answer_quick lower question (PyStr s)
    = feedback_record (PyInt n) st wk sg PyNone
    /\ 1 <= n <= 10
    /\ (strip s = [] -> n = 1 /\ st = [] /\ wk = [py "No answer provided"])
    /\ (strip s <> [] ->
        3 <= n /\ (length st <= 7)%nat /\ (length wk <= 1)%nat
        /\ (length sg <= 2)%nat).
Proof.
  unfold evaluate_answer_quick.
  assert ((if truthy (PyStr s) then PyStr s else PyStr []) = PyStr s) as ->.
  { now destruct s. }
  destruct (strip s) as [|c t] eqn:Hs.
  { eexists _, _, _, _. split; [reflexivity|]. repeat split; try lia; easy. }
  set (lowered := lower (c :: t)).
  set (hits := filter _ quick_keywords).
  pose proof (quick_rating_bounds (length hits)) as Hb.
  assert (length (take 5 hits) <= 5)%nat as Htake.
  { rewrite length_take. lia. }
  pose proof (Hb 7 ltac:(lia)) as H7. pose proof (Hb 5 ltac:(lia)) as H5.
  pose proof (Hb 3 ltac:(lia)) as H3.
  unfold length_branch.
  destruct (40 <? _)%nat; [|destruct (15 <? _)%nat];
    (eexists _, _, _, _; split; [reflexivity|]);
    (split; [lia|]); (split; [discriminate|]); intros _;
    (split; [lia|]);
    rewrite !length_app, length_fmap;
    destruct (any_in star_keywords lowered);
    destruct (negb (contains (py "%") (c :: t)) && negb (any_in impact_words lowered));
    destruct (negb (any_in example_words lowered)); cbn [length]; lia.
Qed.

(** X21. The relevance check never raises and makes at most
    [attempts = 1 + max(0, retries)] remote calls. It decides without any
    remote call, and without sleeping, when the input is shorter than 20
    characters after trimming (the answer is no) and when the lowered input
    holds one of the keywords (the answer is yes). *)
Theorem check_relevant_input_decides (user_input : pystr) (w : world) :
  exists b w',
    check_relevant_input cfg lower user_input w = (Returns b, w')
    /\ (calls w <= calls w' <= calls w + Z.to_nat (attempts cfg))%nat
    /\ ((length (strip user_input) < 20)%nat -> b = false /\ w' = w)
    /\ ((20 <= length (strip user_input))%nat ->
        any_in relevance_keywords (lower user_input) = true ->
        b = true /\ w' = w).
Proof.
  unfold check_relevant_input.
  destruct user_input as [|c t].
  { eexists _, _. split; [reflexivity|]. cbn. repeat split; try lia; discriminate. }
  destruct (length (strip (c :: t)) <? 20)%nat eqn:Hlen.
  { apply Nat.ltb_lt in Hlen. eexists _, _. split; [reflexivity|].
    repeat split; try lia. }
  apply Nat.ltb_ge in Hlen.
  destruct (any_in relevance_keywords (lower (c :: t))) eqn:Hkw.
  { eexists _, _. split; [reflexivity|]. repeat split; try lia. }
  cbn [llm]. unfold try_except, bind.
  pose proof (invoke_calls_bound cfg (relevance_prompt (c :: t)) None w) as Hcalls.
  destruct (_invoke_with_timeout cfg (relevance_prompt (c :: t)) None w)
    as [[resp|e] w1]; cbn [snd] in Hcalls;
    (eexists _, _; split; [reflexivity|]);
    (split; [exact Hcalls|]); (split; [lia|discriminate]).
Qed.

End HeuristicsFacts.

(** ** The scripted interview *)

Section AgentFacts.

Context {L : PyLib}.
Variable cfg : config.
Variable llm_invoke : pystr -> M pystr.




End AgentFacts.

(** ** What the extractors pick out of a text *)

Lemma from_first_skip (c : N) (pre rest : pystr) :
  Forall (fun x => x <> c) pre ->
  from_first c (pre ++ c :: rest) = Some (c :: rest).
Proof.
  induction 1 as [|x pre Hx _ IH]; cbn [app from_first].
  - now rewrite N.eqb_refl.
  - apply N.eqb_neq in Hx. now rewrite Hx.
Qed.

(** The brace block runs from the first opening brace to the last closing
    brace. *)
Lemma search_braces_span (pre mid post : pystr) :
  Forall (fun x => x <> chr "{") pre ->
  Forall (fun x => x <> chr "}") post ->
  search_braces (pre ++ chr "{" :: mid ++ chr "}" :: post)
  = Some (chr "{" :: mid ++ [chr "}"]).
Proof.
  intros Hpre Hpost. unfold search_braces.
  rewrite (from_first_skip _ _ _ Hpre).
  rewrite rev_app_distr. cbn [rev]. rewrite <- app_assoc. cbn [app].
  rewrite from_first_skip by now apply Forall_rev.
  cbn [rev]. now rewrite rev_involutive.
Qed.

Lemma starts_with_other_head (p x : N) (pat s : pystr) :
  x <> p -> starts_with (p :: pat) (x :: s) = false.
Proof. intros H. cbn. apply N.eqb_neq in H. now rewrite H. Qed.

Lemma starts_with_app (pat s : pystr) : starts_with pat (pat ++ s) = true.
Proof. induction pat as [|p pat IH]; cbn; [easy|]. now rewrite N.eqb_refl. Qed.

Lemma after_first_found (pat s : pystr) :
  starts_with pat s = true -> after_first pat s = Some (drop (length pat) s).
Proof. intros H. destruct s; cbn [after_first]; now rewrite H. Qed.

Lemma before_first_found (pat s : pystr) :
  starts_with pat s = true -> before_first pat s = Some [].
Proof. intros H. destruct s; cbn [before_first]; now rewrite H. Qed.

Lemma after_first_skip (p : N) (pat pre rest : pystr) :
  Forall (fun x => x <> p) pre ->
  after_first (p :: pat) (pre ++ (p :: pat) ++ rest) = Some rest.
Proof.
  induction 1 as [|x pre Hx _ IH].
  - cbn [app]. change (p :: pat ++ rest) with ((p :: pat) ++ rest).
    rewrite after_first_found by apply starts_with_app.
    now rewrite drop_app_length.
  - cbn [app after_first]. rewrite (starts_with_other_head _ _ _ _ Hx).
    exact IH.
Qed.

Lemma before_first_skip (p : N) (pat inner post : pystr) :
  Forall (fun x => x <> p) inner ->
  before_first (p :: pat) (inner ++ (p :: pat) ++ post) = Some inner.
Proof.
  induction 1 as [|x inner Hx _ IH].
  - cbn [app]. change (p :: pat ++ post) with ((p :: pat) ++ post).
    apply before_first_found, starts_with_app.
  - cbn [app before_first] in IH |- *.
    rewrite (starts_with_other_head _ _ _ _ Hx). now rewrite IH.
Qed.

(** The tagged block is the text between the first opening tag and the first
    closing tag after it. *)
Lemma search_json_tags_span (pre inner post : pystr) :
  Forall (fun x => x <> chr "<") pre ->
  Forall (fun x => x <> chr "<") inner ->
  search_json_tags (pre ++ py "<JSON>" ++ inner ++ py "</JSON>" ++ post)
  = Some inner.
Proof.
  intros Hpre Hinner. unfold search_json_tags.
  change (py "<JSON>") with (chr "<" :: py "JSON>").
  change (py "</JSON>") with (chr "<" :: py "/JSON>").
  rewrite (after_first_skip _ _ _ _ Hpre).
  exact (before_first_skip _ _ _ _ Hinner).
Qed.

Section Extraction.

Context {L : PyLib}.
Variable cfg : config.

(** The record [evaluate_answer_safe] completes from a validated object. *)
Lemma evaluate_answer_safe_of_object
    (q a : pystr) (w w' : world) (d : pydict) :
  evaluate_answer cfg q a w
  = (Returns (PyDict (dict_set (py "raw") (PyDict d)
                        [(py "rating", rating_of (PyDict d));
                         (py "strengths",
                          PyList (_ensure_list (dict_get (py "strengths") d)));
                         (py "weaknesses",
                          PyList (_ensure_list (dict_get (py "weaknesses") d)));
                         (py "suggestions",
                          PyList (_ensure_list (dict_get (py "suggestions") d)))])),
     w') ->
  evaluate_answer_safe cfg q a w
  = (Returns (PyDict [(py "rating", rating_of (PyDict d));
                      (py "strengths",
                       PyList (_ensure_list (dict_get (py "strengths") d)));
                      (py "weaknesses",
                       PyList (_ensure_list (dict_get (py "weaknesses") d)));
                      (py "suggestions",
                       PyList (_ensure_list (dict_get (py "suggestions") d)));
                      (py "raw", PyDict d);
                      (py "raw_feedback", PyNone)]), w').
Proof.
  intros H. unfold evaluate_answer_safe, bind, try_except. rewrite H.
  reflexivity.
Qed.

(** X23. Prose around a JSON object is tolerated. For a text that does not
    parse as a whole and is not a quoted text that parses, both extractors
    parse the block from the first opening brace to the last closing brace:
    when that block parses, its value is what [generate_question]'s
    extraction and [_extract_json] return. *)
Theorem extractors_parse_brace_block (pre mid post : pystr) (v : pyval) :
  let text := pre ++ chr "{" :: mid ++ chr "}" :: post in
  Forall (fun x => x <> chr "{") pre ->
  Forall (fun x => x <> chr "}") post ->
  json_loads text = None ->
  unquoted_parse text = None ->
  json_loads (chr "{" :: mid ++ [chr "}"]) = Some v ->
  question_extract text = v /\ _extract_json text = v.
Proof.
  intros text Hpre Hpost Hwhole Hquoted Hblock.
  unfold question_extract, _extract_json.
  rewrite Hwhole, Hquoted. unfold text.
  rewrite (search_braces_span _ _ _ Hpre Hpost), Hblock. now split.
Qed.

(** X24. An object in the first answer is final. When the first answer
    yields a JSON object, [evaluate_answer_safe] makes the one invocation (no
    retry prompt) and returns six keys: the coerced rating and the three
    coerced lists, the parsed object itself under [raw], and a [raw_feedback]
    of [None]. *)
Theorem evaluate_answer_safe_object_record
    (q a : pystr) (w w1 : world) (resp : option pystr) (d : pydict) :
  _invoke_with_timeout cfg (eval_prompt q a) None w = (Returns resp, w1) ->
  _extract_json (strip (default [] resp)) = PyDict d ->
  evaluate_answer_safe cfg q a w
  = (Returns (PyDict [(py "rating", rating_of (PyDict d));
                      (py "strengths",
                       PyList (_ensure_list (dict_get (py "strengths") d)));
                      (py "weaknesses",
                       PyList (_ensure_list (dict_get (py "weaknesses") d)));
                      (py "suggestions",
                       PyList (_ensure_list (dict_get (py "suggestions") d)));
                      (py "raw", PyDict d);
                      (py "raw_feedback", PyNone)]), w1).
Proof.
  intros H1 Hext. apply evaluate_answer_safe_of_object.
  unfold evaluate_answer. cbn [llm negb].
  unfold try_except, bind at 1. unfold bind at 1. rewrite H1. cbn zeta.
  rewrite Hext. reflexivity.
Qed.

(** X25. The retry answer is read between its tags. When the first answer
    yields nothing and the retry answer holds [<JSON>inner</JSON>], with no
    [<] before the opening tag nor inside [inner], the record is built from
    the object [inner] yields, whatever surrounds the tags, after the two
    invocations. *)
Theorem evaluate_answer_safe_retry_tags
    (q a : pystr) (w w1 w2 : world) (resp resp2 : option pystr)
    (pre inner post : pystr) (d : pydict) :
  _invoke_with_timeout cfg (eval_prompt q a) None w = (Returns resp, w1) ->
  _extract_json (strip (default [] resp)) = PyNone ->
  _invoke_with_timeout cfg (retry_prompt q a) None w1 = (Returns resp2, w2) ->
  strip (default [] resp2) = pre ++ py "<JSON>" ++ inner ++ py "</JSON>" ++ post ->
  Forall (fun x => x <> chr "<") pre ->
  Forall (fun x => x <> chr "<") inner ->
  _extract_json inner = PyDict d ->
  evaluate_answer_safe cfg q a w
  = (Returns (PyDict [(py "rating", rating_of (PyDict d));
                      (py "strengths",
                       PyList (_ensure_list (dict_get (py "strengths") d)));
                      (py "weaknesses",
                       PyList (_ensure_list (dict_get (py "weaknesses") d)));
                      (py "suggestions",
                       PyList (_ensure_list (dict_get (py "suggestions") d)));
                      (py "raw", PyDict d);
                      (py "raw_feedback", PyNone)]), w2).
Proof.
  intros H1 Hext H2 Htext Hpre Hinner Hobj.
  apply evaluate_answer_safe_of_object.
  unfold evaluate_answer. cbn [llm negb].
  unfold try_except, bind at 1. unfold bind at 1. rewrite H1. cbn zeta.
  rewrite Hext. unfold bind at 1. unfold bind at 1. rewrite H2. cbn zeta.
  rewrite Htext, (search_json_tags_span _ _ _ Hpre Hinner), Hobj.
  reflexivity.
Qed.

End Extraction.

(** ** The first question, end to end *)

Section FirstQuestion.

Context {L : PyLib}.
Variable cfg : config.

(** What [generate_question] returns is the two-key record, its question a
    text. *)
Lemma generate_question_returns_record (jd : pystr) (w w' : world) (v : pyval) :
  generate_question cfg jd w = (Returns v, w') ->
  exists q parsed, v = PyDict [(py "question", PyStr q); (py "parsed", parsed)].
Proof.
  unfold generate_question. cbn [llm negb]. unfold try_except.
  destruct (bind _ _ w) as [[v0|e] w0] eqn:Hrun; [|discriminate].
  intros [= <- <-]. revert Hrun. unfold bind at 1.
  destruct (_invoke_with_timeout cfg (question_prompt jd) None w) as [[resp|e] w1];
    [|discriminate].
  cbn zeta. unfold bind at 1.
  match goal with
  | |- match ?m w1 with _ => _ end = _ -> _ =>
      destruct (m w1) as [[parsed|e] w2]; [|discriminate]
  end.
  unfold bind.
  destruct (question_of_returns parsed w2) as [(q & ->)|(e & ->)]; [|discriminate].
  intros [= <- _]. now exists q, parsed.
Qed.

(** X26. A generated first question is shown. After an accepted
    [start_interview], whenever [generate_question] returns, the
    first-question unit leaves the session [ready] with no error, and a
    status read shows the question of the record, a text; the log holds the
    start entry and the entry that gives the length of the question. The
    [TypeError] branch of the unit (a question with no length) is never
    taken with this generator. *)
Theorem first_question_is_shown
    (jd uuid4 : pystr) (sessions : gmap pystr session) (w w1 : world) (qobj : pyval) :
  ~ blank (Some jd) ->
  generate_question cfg jd w = (Returns qobj, w1) ->
  let started := (api.start_interview (Some jd) uuid4 sessions).1.2 in
  let run := api._bg_generate_first_question (generate_question cfg) uuid4 started w in
  run.2 = w1
  /\ exists st q,
       api.get_status uuid4 run.1 = Returns st
       /\ api.question_field qobj = PyStr q
       /\ status_question st = PyStr q
       /\ status_status st = Ready
       /\ status_error st = None
       /\ eval_status (status_evaluation st) = EvalIdle
       /\ status_log st
          = [py "bg_generate_first_question: start";
             py "bg_generate_first_question: question ready ("
             ++ str_of_Z (Z.of_nat (length q)) ++ py " chars)"].
Proof.
  intros Hjd Hgen started run. subst started run.
  destruct (generate_question_returns_record _ _ _ _ Hgen) as (q & parsed & ->).
  unfold api.start_interview. change (default [] (Some jd)) with jd.
  destruct (strip jd) as [|c t] eqn:Hstrip.
  { destruct Hjd. unfold blank. cbn. now apply strip_nil. }
  cbn [fst snd]. unfold api._bg_generate_first_question.
  rewrite lookup_insert_eq. unfold api.bg_generate_first_question_on.
  cbn [job_description log_append api.new_session]. rewrite Hgen.
  change (api.question_field
            (PyDict [(py "question", PyStr q); (py "parsed", parsed)]))
    with (PyStr q).
  assert (py_len (if truthy (PyStr q) then PyStr q else PyStr [])
          = Some (length q)) as ->.
  { now destruct q. }
  cbn [fst snd]. split; [reflexivity|].
  unfold api.get_status. rewrite lookup_insert_eq.
  eexists _, q. split; [reflexivity|]. cbn.
  repeat split; reflexivity.
Qed.

End FirstQuestion.

(** ** The further properties on concrete inputs *)

(** Evaluate-and-advance on a session in the middle of an interview: the
    six entries its log held are the start of the new log. *)
Lemma operations_extend_log_witness :
  let gen := generate_question (L := cpython.lib) default_config in
  let ev := evaluate_answer_safe (L := cpython.lib) default_config in
  let w := answering (json_object_text (py "question") (py "Why Go?")) in
  exists s',
    (run_operation gen ev (RunEvaluateAnswer (py "s1") (py "Why Rust?") (py "It is safe"))
       {[ py "s1" := ongoing_session ]} w).1 !! py "s1" = Some s'
    /\ [py "bg_generate_first_question: start";
        py "bg_generate_first_question: question ready (11 chars)";
        py "bg_evaluate_answer: start";
        py "bg_evaluate_answer: evaluator returned";
        py "raw_feedback_snippet: ok";
        py "bg_evaluate_answer: finished, evaluation ready"] `prefix_of` log s'.
Proof.
  intros gen ev w.
  destruct (operations_extend_log (L := cpython.lib) gen ev
              (RunEvaluateAnswer (py "s1") (py "Why Rust?") (py "It is safe"))
              (py "s1") ongoing_session
              {[ py "s1" := ongoing_session ]} w
              (lookup_singleton_eq _ _)
              ltac:(discriminate)) as (s' & H1 & H2 & _).
  exists s'. auto.
Defined.

(** No session is stored: the id [s1] is unknown to every operation. *)
Lemma unknown_session_changes_nothing_witness :
  let gen := generate_question (L := cpython.lib) default_config in
  let ev := evaluate_answer_safe (L := cpython.lib) default_config in
  api.answer_question (py "s1") (py "q") (py "a") ∅
  = (Raises (HTTPException 404 (py "Session not found")), ∅, [])
  /\ api.get_status (py "s1") ∅
     = Raises (HTTPException 404 (py "Session not found"))
  /\ api._bg_generate_first_question gen (py "s1") ∅ (answering (py "no"))
     = (∅, answering (py "no"))
  /\ api._bg_evaluate_answer gen ev (py "s1") (py "q") (py "a") ∅ (answering (py "no"))
     = (∅, answering (py "no")).
Proof.
  intros gen ev.
  exact (unknown_session_changes_nothing (L := cpython.lib) gen ev
           (py "s1") (py "q") (py "a") ∅ (answering (py "no")) (lookup_empty _)).
Defined.



(** At the defaults, the first attempt times out and the second answers: two
    calls, one sleep. *)
Lemma invoke_sleeps_between_attempts_witness :
  let w := {| remote := fun n _ => match n with
                                   | O => TimedOut
                                   | S _ => Returned (Some (py "ok"))
                                   end;
              calls := 0; slept := [] |} in
  let w' := (_invoke_with_timeout default_config (py "hello") None w).2 in
  (calls w < calls w')%nat
  /\ (length (slept w') + 1 = length (slept w) + (calls w' - calls w))%nat
  /\ slept w `prefix_of` slept w'.
Proof.
  intros w.
  exact (invoke_sleeps_between_attempts default_config (py "hello") None w
           ltac:(cbn; discriminate)).
Defined.

(** A retry count of -1: one call that times out, no sleep. *)
Lemma invoke_single_attempt_witness :
  let cfg := {| LLM_INVOKE_TIMEOUT := 120; LLM_INVOKE_RETRIES := -1;
                LLM_BACKOFF_FACTOR := 2 |} in
  let w := {| remote := fun _ _ => TimedOut; calls := 0; slept := [] |} in
  _invoke_with_timeout cfg (py "hello") None w
  = (Raises (timed_out_error cfg 120),
     {| remote := remote w; calls := 1; slept := [] |}).
Proof.
  intros cfg w.
  exact (invoke_single_attempt cfg (py "hello") None w ltac:(cbn; lia)).
Defined.





(** The model answers an object whose question has spaces around it: they
    are kept. *)
Lemma generate_question_keeps_string_question_witness :
  let w := answering (json_object_text (py "question") (py " Why Python? ")) in
  generate_question (L := cpython.lib) default_config
    (py "Senior backend engineer, Python") w
  = (Returns (PyDict [(py "question", PyStr (py " Why Python? "));
                      (py "parsed",
                       PyDict [(py "question", PyStr (py " Why Python? "))])]),
     {| remote := remote w; calls := 1; slept := [] |}).
Proof.
  intros w.
  exact (generate_question_keeps_string_question (L := cpython.lib) default_config
           (py "Senior backend engineer, Python") w
           {| remote := remote w; calls := 1; slept := [] |}
           (Some (json_object_text (py "question") (py " Why Python? ")))
           [(py "question", PyStr (py " Why Python? "))] (py " Why Python? ")
           ltac:(vm_compute; reflexivity) ltac:(vm_compute; reflexivity)
           ltac:(vm_compute; reflexivity)).
Defined.


(** The fallback record of a description of two lines, the first one of 83
    characters after two spaces: the role is cut at 60 characters and stops
    before the line feed, the first word is found after the spaces. *)
Lemma fallback_record_fields_witness :
  let jd := py "  Senior backend engineer with a strong record in distributed systems and databases"
            ++ nl ++ py "Remote, full time" in
  exists line after_line word,
    jd = line ++ after_line
    /\ Forall (fun c => c <> 10%N) line
    /\ (after_line = [] \/ exists t, after_line = 10%N :: t)
    /\ (fallback_record jd (answering (py "no"))).1
       = Returns (PyDict [(py "role", PyStr (take 60 line));
                          (py "seniority", PyStr (py "unspecified"));
                          (py "skills", PyStr []);
                          (py "job_type", PyStr (py "unspecified"));
                          (py "location", PyStr (py "unspecified"));
                          (py "question",
                           PyStr (py "Based on the job description, can you tell me about your experience related to "
                                  ++ word ++ py "?"))])
    /\ take 60 line
       = py "  Senior backend engineer with a strong record in distribute"
    /\ word ++ py "?" = py "Senior?".
Proof.
  intros jd.
  destruct (fallback_record jd (answering (py "no"))) as [[v|e] w'] eqn:Hrec;
    [|vm_compute in Hrec; discriminate Hrec].
  destruct (fallback_record_fields jd (answering (py "no")) w' v Hrec)
    as (line & after_line & blanks & word & after_word
        & H1 & H2 & H3 & _ & _ & _ & _ & _ & Hv & _).
  vm_compute in Hrec. injection Hrec as Hv' _. rewrite Hv in Hv'.
  injection Hv' as Hrole Hquestion.
  exists line, after_line, word. rewrite Hv.
  repeat split; try assumption; try reflexivity; symmetry; assumption.
Defined.



(** A JSON object between a greeting and a closing word. *)
Lemma extractors_parse_brace_block_witness :
  let text := py "Sure: " ++ json_object_text (py "question") (py "Why?")
              ++ py " Thanks." in
  question_extract (L := cpython.lib) text
  = PyDict [(py "question", PyStr (py "Why?"))]
  /\ _extract_json (L := cpython.lib) text
     = PyDict [(py "question", PyStr (py "Why?"))].
Proof.
  intros text.
  exact (extractors_parse_brace_block (L := cpython.lib)
           (py "Sure: ")
           (dq ++ py "question" ++ dq ++ py ": " ++ dq ++ py "Why?" ++ dq)
           (py " Thanks.")
           (PyDict [(py "question", PyStr (py "Why?"))])
           ltac:(vm_compute; repeat (apply Forall_cons_2; [discriminate|]);
                 apply Forall_nil_2)
           ltac:(vm_compute; repeat (apply Forall_cons_2; [discriminate|]);
                 apply Forall_nil_2)
           ltac:(vm_compute; reflexivity) ltac:(vm_compute; reflexivity)
           ltac:(vm_compute; reflexivity)).
Defined.

(** The model answers an object with a rating and a strengths text. *)
Lemma evaluate_answer_safe_object_record_witness :
  let text := py "{" ++ dq ++ py "rating" ++ dq ++ py ": 7, "
              ++ dq ++ py "strengths" ++ dq ++ py ": "
              ++ dq ++ py "clear; concise" ++ dq ++ py "}" in
  let d := [(py "rating", PyInt 7); (py "strengths", PyStr (py "clear; concise"))] in
  evaluate_answer_safe (L := cpython.lib) default_config (py "q") (py "a")
    (answering text)
  = (Returns (PyDict [(py "rating", PyInt 7);
                      (py "strengths", PyList [PyStr (py "clear"); PyStr (py "concise")]);
                      (py "weaknesses", PyList []);
                      (py "suggestions", PyList []);
                      (py "raw", PyDict d);
                      (py "raw_feedback", PyNone)]),
     {| remote := remote (answering text); calls := 1; slept := [] |}).
Proof.
  intros text d.
  etransitivity;
    [exact (evaluate_answer_safe_object_record (L := cpython.lib) default_config
              (py "q") (py "a") (answering text)
              {| remote := remote (answering text); calls := 1; slept := [] |}
              (Some text) d
              ltac:(vm_compute; reflexivity) ltac:(vm_compute; reflexivity))
    |vm_compute; reflexivity].
Defined.

(** The first answer is prose, the retry answer holds the object between
    tags, with prose around them. *)
Lemma evaluate_answer_safe_retry_tags_witness :
  let inner := py "{" ++ dq ++ py "rating" ++ dq ++ py ": 7}" in
  let w := {| remote := fun n _ =>
                          match n with
                          | O => Returned (Some (py "no idea"))
                          | S _ => Returned (Some (py "Here: <JSON>" ++ inner
                                                   ++ py "</JSON> bye"))
                          end;
              calls := 0; slept := [] |} in
  evaluate_answer_safe (L := cpython.lib) default_config (py "q") (py "a") w
  = (Returns (PyDict [(py "rating", PyInt 7);
                      (py "strengths", PyList []);
                      (py "weaknesses", PyList []);
                      (py "suggestions", PyList []);
                      (py "raw", PyDict [(py "rating", PyInt 7)]);
                      (py "raw_feedback", PyNone)]),
     {| remote := remote w; calls := 2; slept := [] |}).
Proof.
  intros inner w.
  etransitivity;
    [exact (evaluate_answer_safe_retry_tags (L := cpython.lib) default_config
              (py "q") (py "a") w
              {| remote := remote w; calls := 1; slept := [] |}
              {| remote := remote w; calls := 2; slept := [] |}
              (Some (py "no idea"))
              (Some (py "Here: <JSON>" ++ inner ++ py "</JSON> bye"))
              (py "Here: ") inner (py " bye") [(py "rating", PyInt 7)]
              ltac:(vm_compute; reflexivity) ltac:(vm_compute; reflexivity)
              ltac:(vm_compute; reflexivity) ltac:(vm_compute; reflexivity)
              ltac:(vm_compute; repeat (apply Forall_cons_2; [discriminate|]);
                    apply Forall_nil_2)
              ltac:(vm_compute; repeat (apply Forall_cons_2; [discriminate|]);
                    apply Forall_nil_2)
              ltac:(vm_compute; reflexivity))
    |vm_compute; reflexivity].
Defined.

(** An accepted start, then a model that answers the expected object: the
    status read shows its question. *)
Lemma first_question_is_shown_witness :
  let jd := py "Senior backend engineer, Python" in
  let w := answering (json_object_text (py "question") (py "Why Python?")) in
  let gen := generate_question (L := cpython.lib) default_config in
  exists st,
    api.get_status (py "s1")
      (api._bg_generate_first_question gen (py "s1")
         (api.start_interview (Some jd) (py "s1") ∅).1.2 w).1
    = Returns st
    /\ status_question st = PyStr (py "Why Python?")
    /\ status_status st = Ready
    /\ status_error st = None.
Proof.
  intros jd w gen.
  pose proof (first_question_is_shown (L := cpython.lib) default_config
                jd (py "s1") ∅ w
                {| remote := remote w; calls := 1; slept := [] |}
                (PyDict [(py "question", PyStr (py "Why Python?"));
                         (py "parsed",
                          PyDict [(py "question", PyStr (py "Why Python?"))])])
                ltac:(intros H; apply Forall_cons_1 in H as [H _]; discriminate H)
                ltac:(vm_compute; reflexivity)) as H.
  cbv zeta in H. destruct H as (_ & st & q & H1 & Hq & H2 & H3 & H4 & _).
  injection Hq as <-. exists st. auto.
Defined.

(** ** The heuristics and the scripted interview on concrete inputs *)

(** A short answer that names a cache: one keyword and the short-answer
    score, [int(1.5 + 3) = 4]. *)
Example evaluate_answer_quick_short_answer :
  evaluate_answer_quick (L := cpython.lib) ascii_lower (py "q")
    (PyStr (py "We built a cache"))
  = feedback_record (PyInt 4)
      [py "Mentions: cache"; py "Uses STAR-style structure or gives concrete impact"]
      [py "Answer is short; add an example or more specifics"]
      [py "Include measurable impact (e.g., reduced latency by 30%)."]
      PyNone.
Proof. vm_compute. reflexivity. Qed.

(** An answer that is a number has no [strip]: the failure record. *)
Example evaluate_answer_quick_on_number :
  evaluate_answer_quick (L := cpython.lib) ascii_lower (py "q") (PyInt 5)
  = feedback_record PyNone [] [py "Quick evaluator failed"]
      [py "Try again or wait for full evaluation."]
      (PyStr (py "quick-eval-exception: 'int' object has no attribute 'strip'")).
Proof. vm_compute. reflexivity. Qed.

(** A keyword decides without a call; without one the model is asked once. *)
Example check_relevant_input_on_texts :
  check_relevant_input default_config ascii_lower
    (py "Looking for a Senior Engineer") (answering (py "no"))
  = (Returns true, answering (py "no"))
  /\ check_relevant_input default_config ascii_lower
       (py "tell me a joke about cats please") (answering (py "Yes."))
     = (Returns true,
        {| remote := remote (answering (py "Yes.")); calls := 1; slept := [] |})
  /\ check_relevant_input default_config ascii_lower
       (py "short") (answering (py "Yes."))
     = (Returns false, answering (py "Yes.")).
Proof. repeat split; vm_compute; reflexivity. Qed.

(** Two answers and a model that always gives the same question object: two
    items, both on that question, and the model's text as the summary. *)
Example run_mock_interview_two_answers :
  let text := json_object_text (py "question") (py "Why Python?") in
  (run_mock_interview (L := cpython.lib) default_config (fun _ => ret [])
     (py "Senior backend engineer, Python") [py "a1"; py "a2"] (answering text)).1
  = Returns
      {| feedback_list :=
           [{| item_question := PyStr (py "Why Python?"); item_answer := py "a1";
               item_feedback :=
                 PyDict [(py "rating", PyNone); (py "strengths", PyList []);
                         (py "weaknesses", PyList []); (py "suggestions", PyList []);
                         (py "raw", PyDict [(py "question", PyStr (py "Why Python?"))]);
                         (py "raw_feedback", PyNone)] |};
            {| item_question := PyStr (py "Why Python?"); item_answer := py "a2";
               item_feedback :=
                 PyDict [(py "rating", PyNone); (py "strengths", PyList []);
                         (py "weaknesses", PyList []); (py "suggestions", PyList []);
                         (py "raw", PyDict [(py "question", PyStr (py "Why Python?"))]);
                         (py "raw_feedback", PyNone)] |}];
         summary := text |}.
Proof. vm_compute. reflexivity. Qed.
